(** * Adafruit_SPITFT: pixel transport layer, shallow embedding

    The development follows [Adafruit_SPITFT.cpp] / [Adafruit_SPITFT.h].
    C++ integers are modelled as [Z] with every conversion written out,
    the global scratch buffer [spi_buffer] as a list of bytes updated in
    place, and everything that reaches the display (pin writes, SPI
    transfers, address-window requests) as events appended to a trace.
    Undefined behaviour of the C++ code (a store or a load outside an
    array) makes the model return [None]. *)

From Stdlib Require Import ZArith Lia Bool.
From stdpp Require Import base list.

Open Scope Z_scope.

(** ** Machine integers *)

Module Int.

Definition to_uint8 (z : Z) : Z := z mod 256.
Definition to_uint16 (z : Z) : Z := z mod 65536.
Definition to_uint32 (z : Z) : Z := z mod 4294967296.
Definition to_int16 (z : Z) : Z := (z + 32768) mod 65536 - 32768.
(** [int] is 32 bits wide on the mbed targets this port is written for. *)
Definition to_int (z : Z) : Z := (z + 2147483648) mod 4294967296 - 2147483648.

Definition is_uint8 (z : Z) : Prop := 0 <= z < 256.
Definition is_uint16 (z : Z) : Prop := 0 <= z < 65536.
Definition is_uint32 (z : Z) : Prop := 0 <= z < 4294967296.
Definition is_int16 (z : Z) : Prop := -32768 <= z <= 32767.

End Int.
Import Int.

(** ** Constants and byte helpers *)

(** [const int SPI_BUFFER_SIZE = 1024;] *)
Definition SPI_BUFFER_SIZE : Z := 1024.

(** Modelled from the spec: the macros [highByte] and [lowByte] come from a
    header that is not part of the two source files; the spec calls them
    the high and the low byte of a 16-bit color. *)
Definition highByte (w : Z) : Z := to_uint8 (Z.shiftr w 8).
Definition lowByte (w : Z) : Z := to_uint8 (Z.land w 255).

(** [uint16_t SWAP_BYTES(uint16_t x)] *)
Definition SWAP_BYTES (x : Z) : Z :=
  to_uint16 (Z.lor (Z.shiftl (Z.land x 255) 8)
                   (Z.land (Z.shiftr (Z.land x 65280) 8) 255)).

(** [uint16_t color565(uint8_t red, uint8_t green, uint8_t blue)] *)
Definition color565 (red green blue : Z) : Z :=
  to_uint16 (Z.lor (Z.lor (Z.shiftl (Z.land red 248) 8)
                          (Z.shiftl (Z.land green 252) 3))
                   (Z.shiftr blue 3)).

(** ** Device, state and trace *)

(** Possible values of [Adafruit_SPITFT.connection]; the parallel
    constructor is commented out in the source. *)
Inductive connection_t := TFT_HARD_SPI | TFT_SOFT_SPI.

(** What leaves the class: calls of the transaction brackets, pin writes,
    transfers handed to the SPI peripheral, and calls of the subclass'
    [setAddrWindow] (arguments as the [uint16_t] values it receives). *)
Inductive bus_event :=
| EvStartWrite
| EvEndWrite
| EvCS (level : bool)
| EvDC (level : bool)
| EvMOSI (level : bool)
| EvSCK (level : bool)
| EvSpiByte (b : Z)
| EvSpiBlock (bytes : list Z)
| EvAddrWindow (x y w h : Z).

(** The fields of the object the drawing code reads: [connection], and the
    canvas bounds [_width], [_height] inherited from the graphics base
    class (both [int16_t]). *)
Record Adafruit_SPITFT := {
  connection : connection_t;
  _width : Z;
  _height : Z
}.

(** Mutable state: the process-wide scratch buffer (empty until
    [initSPI] allocates it), the level of the chip-select pin, and the
    trace of events issued so far, oldest first. *)
Record tft_state := {
  spi_buffer : list Z;
  cs_pin : bool;
  trace : list bus_event
}.

(** ** A state monad with failure *)

Definition M (A : Type) : Type := tft_state -> option (A * tft_state).

Definition ret {A} (a : A) : M A := fun s => Some (a, s).
Definition fail {A} : M A := fun _ => None.
Definition bind {A B} (c : M A) (k : A -> M B) : M B :=
  fun s => match c s with
           | Some (a, s') => k a s'
           | None => None
           end.

Declare Scope tft_scope.
Delimit Scope tft_scope with tft.
Notation "x <~ c ;; k" := (bind c (fun x => k))
  (at level 100, c at next level, right associativity) : tft_scope.
Notation "c ;;; k" := (bind c (fun _ => k))
  (at level 100, right associativity) : tft_scope.
Open Scope tft_scope.

Definition emit (e : bus_event) : M unit :=
  fun s => Some (tt, {| spi_buffer := spi_buffer s;
                        cs_pin := cs_pin s;
                        trace := trace s ++ [e] |}).

Definition get_buffer : M (list Z) := fun s => Some (spi_buffer s, s).

Definition set_buffer (b : list Z) : M unit :=
  fun s => Some (tt, {| spi_buffer := b; cs_pin := cs_pin s; trace := trace s |}).

(** The result of running a computation that returns nothing. *)
Definition exec (c : M unit) (s : tft_state) : option tft_state :=
  match c s with Some (_, s') => Some s' | None => None end.

(** [when b c]: the C statement [if (b) c;]. *)
Definition when (b : bool) (c : M unit) : M unit := if b then c else ret tt.

(** A counted loop: [for (i = start; ...; i++) body] whose body leaves the
    counter and the bound alone, run [n] times. *)
Fixpoint for_n {A} (n : nat) (i : Z) (acc : A) (body : Z -> A -> M A) : M A :=
  match n with
  | O => ret acc
  | S n' => acc' <~ body i acc ;; for_n n' (i + 1) acc' body
  end.

(** ** Scratch buffer accesses *)

(** [spi_buffer[i] = v] for a byte; a store outside the allocation is
    undefined behaviour. *)
Definition buf_store8 (i : Z) (v : Z) : M unit :=
  b <~ get_buffer ;;
  if (0 <=? i) && (i <? Z.of_nat (length b))
  then set_buffer (<[Z.to_nat i := to_uint8 v]> b)
  else fail.

(** [((uint16_t * )spi_buffer)[slot] = v]: the targets are little-endian,
    so the low byte of [v] lands at the lower address. *)
Definition buf_store16 (slot : Z) (v : Z) : M unit :=
  buf_store8 (2 * slot) (Z.land v 255) ;;;
  buf_store8 (2 * slot + 1) (Z.shiftr v 8).

(** [memset(spi_buffer, v, n)] *)
Definition buf_memset (v : Z) (n : Z) : M unit :=
  b <~ get_buffer ;;
  if (0 <=? n) && (n <=? Z.of_nat (length b))
  then set_buffer (replicate (Z.to_nat n) (to_uint8 v) ++ drop (Z.to_nat n) b)
  else fail.

(** [hwspi._spi->write((char * )spi_buffer, n, NULL, 0)]: the first [n]
    bytes of the buffer go out as one block. *)
Definition spi_write_buffer (n : Z) : M unit :=
  b <~ get_buffer ;;
  if (0 <=? n) && (n <=? Z.of_nat (length b))
  then emit (EvSpiBlock (take (Z.to_nat n) b))
  else fail.

(** A [uint16_t *] into caller memory: the array and an element offset. *)
Record u16ptr := { arr : list Z; idx : Z }.

Definition ptr_add (p : u16ptr) (k : Z) : u16ptr :=
  {| arr := arr p; idx := idx p + k |}.

(** [p[i]]; reading outside the array is undefined behaviour. *)
Definition ptr_read (p : u16ptr) (i : Z) : M Z :=
  if 0 <=? idx p + i
  then match arr p !! Z.to_nat (idx p + i) with
       | Some v => ret v
       | None => fail
       end
  else fail.

(** ** Pins and transaction brackets *)

(** [DigitalInOut] converts to [int] by reading the pin: LOW is 0, HIGH is 1. *)
Definition pin_read (level : bool) : Z := if level then 1 else 0.

Definition read_cs : M Z := fun s => Some (pin_read (cs_pin s), s).

Definition write_cs (level : bool) : M unit :=
  fun s => Some (tt, {| spi_buffer := spi_buffer s;
                        cs_pin := level;
                        trace := trace s ++ [EvCS level] |}).

Definition SPI_CS_HIGH : M unit := write_cs true.
Definition SPI_CS_LOW : M unit := write_cs false.
Definition SPI_MOSI_HIGH : M unit := emit (EvMOSI true).
Definition SPI_MOSI_LOW : M unit := emit (EvMOSI false).
Definition SPI_SCK_HIGH : M unit := emit (EvSCK true).
Definition SPI_SCK_LOW : M unit := emit (EvSCK false).

(** Both bodies are empty in the source. *)
Definition SPI_BEGIN_TRANSACTION : M unit := ret tt.
Definition SPI_END_TRANSACTION : M unit := ret tt.

(** [void startWrite(void)]; the call itself is recorded in the trace so
    that the bracketing of a drawing operation can be observed. *)
Definition startWrite : M unit :=
  emit EvStartWrite ;;;
  SPI_BEGIN_TRANSACTION ;;;
  cs <~ read_cs ;;
  when (cs >=? 0) SPI_CS_LOW.

(** [void endWrite(void)] *)
Definition endWrite : M unit :=
  cs <~ read_cs ;;
  when (cs >=? 0) SPI_CS_HIGH ;;;
  SPI_END_TRANSACTION ;;;
  emit EvEndWrite.

(** The subclass' [setAddrWindow(uint16_t, uint16_t, uint16_t, uint16_t)]:
    pure virtual here, so only the call and its converted arguments are
    recorded. *)
Definition setAddrWindow (x y w h : Z) : M unit :=
  emit (EvAddrWindow (to_uint16 x) (to_uint16 y) (to_uint16 w) (to_uint16 h)).

Section Device.

Variable dev : Adafruit_SPITFT.

(** One bit of a bit-banged 16-bit word: data line from bit 15, one
    clock pulse, shift left. Used by [SPI_WRITE16] and by the soft-SPI
    branch of [writeColor] (which shifts between the two clock edges). *)
Definition bitbang16_step (bit : Z) (w : Z) : M Z :=
  (if Z.land w 32768 =? 0 then SPI_MOSI_LOW else SPI_MOSI_HIGH) ;;;
  SPI_SCK_HIGH ;;;
  SPI_SCK_LOW ;;;
  ret (to_uint16 (Z.shiftl w 1)).

(** [void SPI_WRITE16(uint16_t w)] *)
Definition SPI_WRITE16 (w : Z) : M unit :=
  match connection dev with
  | TFT_HARD_SPI =>
      emit (EvSpiBlock [to_uint8 (Z.shiftr w 8); to_uint8 w])
  | TFT_SOFT_SPI =>
      for_n 16 0 w bitbang16_step ;;; ret tt
  end.

(** [void writePixel(int16_t x, int16_t y, uint16_t color)] *)
Definition writePixel (x y color : Z) : M unit :=
  when ((x >=? 0) && (x <? _width dev) && (y >=? 0) && (y <? _height dev))
       (setAddrWindow x y 1 1 ;;; SPI_WRITE16 color).

(** The inner loop of [writePixels]: two bytes per pixel, high byte
    first, until the buffer is full or the pixels run out. Returns the
    index of the next pixel. *)
Fixpoint fill_pixels (fuel : nat) (colors : u16ptr) (len : Z) (ptr i : Z) : M Z :=
  if (ptr <? SPI_BUFFER_SIZE) && (i <? len)
  then match fuel with
       | O => fail
       | S fuel' =>
           c <~ ptr_read colors i ;;
           buf_store8 ptr (highByte c) ;;;
           buf_store8 (ptr + 1) (lowByte c) ;;;
           fill_pixels fuel' colors len (ptr + 2) (i + 1)
       end
  else ret i.

(** The outer loop of [writePixels] on hardware SPI:
    [for (int remaining_bytes = 2 * len; remaining_bytes > 0;
          remaining_bytes -= SPI_BUFFER_SIZE)]. *)
Fixpoint pixel_chunks (fuel : nat) (colors : u16ptr) (len : Z) (i remaining_bytes : Z) : M unit :=
  if remaining_bytes >? 0
  then match fuel with
       | O => fail
       | S fuel' =>
           i' <~ fill_pixels (Z.to_nat SPI_BUFFER_SIZE) colors len 0 i ;;
           spi_write_buffer (Z.min remaining_bytes SPI_BUFFER_SIZE) ;;;
           pixel_chunks fuel' colors len i' (to_int (remaining_bytes - SPI_BUFFER_SIZE))
       end
  else ret tt.

(** [void writePixels(uint16_t *colors, uint32_t len, bool block, bool bigEndian)].
    [2 * len] is computed in [uint32_t] and then converted to [int]. *)
Definition writePixels (colors : u16ptr) (len : Z) (block bigEndian : bool) : M unit :=
  if len =? 0 then ret tt
  else match connection dev with
       | TFT_HARD_SPI =>
           let remaining_bytes := to_int (to_uint32 (2 * len)) in
           pixel_chunks (Z.to_nat remaining_bytes) colors len 0 remaining_bytes
       | TFT_SOFT_SPI =>
           for_n (Z.to_nat len) 0 tt
                 (fun k _ => c <~ ptr_read colors k ;; SPI_WRITE16 c)
       end.

(** The transfer loop of [writeColor] on hardware SPI. *)
Fixpoint color_chunks (fuel : nat) (remaining_bytes : Z) : M unit :=
  if remaining_bytes >? 0
  then match fuel with
       | O => fail
       | S fuel' =>
           spi_write_buffer (Z.min remaining_bytes SPI_BUFFER_SIZE) ;;;
           color_chunks fuel' (to_int (remaining_bytes - SPI_BUFFER_SIZE))
       end
  else ret tt.

(** The staging step of [writeColor] on hardware SPI. *)
Definition stage_color (color : Z) : M unit :=
  let hi := highByte color in
  let lo := lowByte color in
  if hi =? lo
  then buf_memset hi SPI_BUFFER_SIZE
  else
    let data := SWAP_BYTES color in
    for_n (Z.to_nat (SPI_BUFFER_SIZE / 2)) 0 tt
          (fun slot _ => buf_store16 slot data).

(** [void writeColor(uint16_t color, uint32_t len)] *)
Definition writeColor (color : Z) (len : Z) : M unit :=
  if len =? 0 then ret tt
  else match connection dev with
       | TFT_HARD_SPI =>
           stage_color color ;;;
           let remaining_bytes := to_int (to_uint32 (2 * len)) in
           color_chunks (Z.to_nat remaining_bytes) remaining_bytes
       | TFT_SOFT_SPI =>
           for_n (Z.to_nat len) 0 tt
                 (fun _ _ => for_n 16 0 color bitbang16_step ;;; ret tt)
       end.

(** [inline void writeFillRectPreclipped(int16_t x, int16_t y, int16_t w,
    int16_t h, uint16_t color)]; the pixel count is [(uint32_t)w * h]. *)
Definition writeFillRectPreclipped (x y w h color : Z) : M unit :=
  setAddrWindow x y w h ;;;
  writeColor color (to_uint32 (to_uint32 w * to_uint32 h)).

(** [if (w < 0) { x += w + 1; w = -w; }] on [int16_t] variables. *)
Definition normalize_extent (x w : Z) : Z * Z :=
  if w <? 0 then (to_int16 (x + (w + 1)), to_int16 (- w)) else (x, w).

(** [if (x < 0) { x = 0; w = x2 + 1; }] *)
Definition clip_near (x w x2 : Z) : Z * Z :=
  if x <? 0 then (0, to_int16 (x2 + 1)) else (x, w).

(** [if (x2 >= _width) { w = _width - x; }] *)
Definition clip_far (x w x2 bound : Z) : Z :=
  if x2 >=? bound then to_int16 (bound - x) else w.

(** [void writeFillRect(int16_t x, int16_t y, int16_t w, int16_t h,
    uint16_t color)] *)
Definition writeFillRect (x y w h color : Z) : M unit :=
  when (negb (w =? 0) && negb (h =? 0))
    (let '(x, w) := normalize_extent x w in
     when (x <? _width dev)
       (let '(y, h) := normalize_extent y h in
        when (y <? _height dev)
          (let x2 := to_int16 (x + w - 1) in
           when (x2 >=? 0)
             (let y2 := to_int16 (y + h - 1) in
              when (y2 >=? 0)
                (let '(x, w) := clip_near x w x2 in
                 let '(y, h) := clip_near y h y2 in
                 let w := clip_far x w x2 (_width dev) in
                 let h := clip_far y h y2 (_height dev) in
                 writeFillRectPreclipped x y w h color))))).

(** [void drawPixel(int16_t x, int16_t y, uint16_t color)] *)
Definition drawPixel (x y color : Z) : M unit :=
  when ((x >=? 0) && (x <? _width dev) && (y >=? 0) && (y <? _height dev))
       (startWrite ;;;
        setAddrWindow x y 1 1 ;;;
        SPI_WRITE16 color ;;;
        endWrite).

(** [void fillRect(int16_t x, int16_t y, int16_t w, int16_t h,
    uint16_t color)] *)
Definition fillRect (x y w h color : Z) : M unit :=
  when (negb (w =? 0) && negb (h =? 0))
    (let '(x, w) := normalize_extent x w in
     when (x <? _width dev)
       (let '(y, h) := normalize_extent y h in
        when (y <? _height dev)
          (let x2 := to_int16 (x + w - 1) in
           when (x2 >=? 0)
             (let y2 := to_int16 (y + h - 1) in
              when (y2 >=? 0)
                (let '(x, w) := clip_near x w x2 in
                 let '(y, h) := clip_near y h y2 in
                 let w := clip_far x w x2 (_width dev) in
                 let h := clip_far y h y2 (_height dev) in
                 startWrite ;;;
                 writeFillRectPreclipped x y w h color ;;;
                 endWrite))))).

(** [void drawFastHLine(int16_t x, int16_t y, int16_t w, uint16_t color)] *)
Definition drawFastHLine (x y w color : Z) : M unit :=
  when ((y >=? 0) && (y <? _height dev) && negb (w =? 0))
    (let '(x, w) := normalize_extent x w in
     when (x <? _width dev)
       (let x2 := to_int16 (x + w - 1) in
        when (x2 >=? 0)
          (let '(x, w) := clip_near x w x2 in
           let w := clip_far x w x2 (_width dev) in
           startWrite ;;;
           writeFillRectPreclipped x y w 1 color ;;;
           endWrite))).

(** [void drawFastVLine(int16_t x, int16_t y, int16_t h, uint16_t color)] *)
Definition drawFastVLine (x y h color : Z) : M unit :=
  when ((x >=? 0) && (x <? _width dev) && negb (h =? 0))
    (let '(y, h) := normalize_extent y h in
     when (y <? _height dev)
       (let y2 := to_int16 (y + h - 1) in
        when (y2 >=? 0)
          (let '(y, h) := clip_near y h y2 in
           let h := clip_far y h y2 (_height dev) in
           startWrite ;;;
           writeFillRectPreclipped x y 1 h color ;;;
           endWrite))).

(** [void pushColor(uint16_t color)] *)
Definition pushColor (color : Z) : M unit :=
  startWrite ;;;
  SPI_WRITE16 color ;;;
  endWrite.

(** The row loop of [drawRGBBitmap]:
    [while (h--) { writePixels(pcolors, w); pcolors += saveW; }].
    [h] is an [int16_t], so at most 65535 rounds are possible. *)
Fixpoint bitmap_rows (fuel : nat) (pcolors : u16ptr) (w saveW h : Z) : M unit :=
  if h =? 0 then ret tt
  else match fuel with
       | O => fail
       | S fuel' =>
           writePixels pcolors (to_uint32 w) true false ;;;
           bitmap_rows fuel' (ptr_add pcolors saveW) w saveW (to_int16 (h - 1))
       end.

(** [void drawRGBBitmap(int16_t x, int16_t y, uint16_t *pcolors,
    int16_t w, int16_t h)] *)
Definition drawRGBBitmap (x y : Z) (pcolors : u16ptr) (w h : Z) : M unit :=
  let x2 := to_int16 (x + w - 1) in
  let y2 := to_int16 (y + h - 1) in
  if (x >=? _width dev) || (y >=? _height dev) || (x2 <? 0) || (y2 <? 0)
  then ret tt
  else
    let saveW := w in
    let '(x, w, bx1) :=
      if x <? 0 then (0, to_int16 (w + x), to_int16 (- x)) else (x, w, 0) in
    let '(y, h, by1) :=
      if y <? 0 then (0, to_int16 (h + y), to_int16 (- y)) else (y, h, 0) in
    let w := clip_far x w x2 (_width dev) in
    let h := clip_far y h y2 (_height dev) in
    let pcolors := ptr_add pcolors (by1 * saveW + bx1) in
    startWrite ;;;
    setAddrWindow x y w h ;;;
    bitmap_rows (Z.to_nat 65536) pcolors w saveW h ;;;
    endWrite.

(** [pgm_read_byte(&bitmap[k])]: a plain array read on this target. *)
Definition pgm_read_byte (bitmap : list Z) (k : Z) : M Z :=
  if 0 <=? k
  then match bitmap !! Z.to_nat k with
       | Some v => ret v
       | None => fail
       end
  else fail.

(** One column of [drawXBitmap]: refresh or shift [byte], then store the
    color its bit 0 selects into 16-bit slot [i] of the scratch buffer. *)
Definition xbitmap_column (bitmap : list Z) (byteWidth j : Z)
           (fg_color_data bg_color_data : Z) (i : Z) (byte : Z) : M Z :=
  byte <~ (if Z.land i 7 =? 0
           then pgm_read_byte bitmap (j * byteWidth + Z.quot i 8)
           else ret (Z.shiftr byte 1)) ;;
  (if Z.land byte 1 =? 0
   then buf_store16 i bg_color_data
   else buf_store16 i fg_color_data) ;;;
  ret byte.

(** One scanline of [drawXBitmap]; the loop state is [byte] and [y]. *)
Definition xbitmap_row (x : Z) (bitmap : list Z) (w byteWidth : Z)
           (fg_color_data bg_color_data : Z) (j : Z) (st : Z * Z) : M (Z * Z) :=
  let '(byte, y) := st in
  byte <~ for_n (Z.to_nat w) 0 byte
                (xbitmap_column bitmap byteWidth j fg_color_data bg_color_data) ;;
  setAddrWindow x y w 1 ;;;
  spi_write_buffer (2 * w) ;;;
  ret (byte, to_int16 (y + 1)).

(** [void drawXBitmap(int16_t x, int16_t y, const uint8_t bitmap[],
    int16_t w, int16_t h, uint16_t fg_color, uint16_t bg_color)].
    The transfer goes through [hwspi._spi] whatever the connection. *)
Definition drawXBitmap (x y : Z) (bitmap : list Z) (w h fg_color bg_color : Z) : M unit :=
  let byteWidth := to_int16 (Z.quot (w + 7) 8) in
  let byte := 0 in
  let fg_color_data := SWAP_BYTES fg_color in
  let bg_color_data := SWAP_BYTES bg_color in
  startWrite ;;;
  for_n (Z.to_nat h) 0 (byte, y)
        (xbitmap_row x bitmap w byteWidth fg_color_data bg_color_data) ;;;
  endWrite.

End Device.

(** ** Concrete devices and states used in examples *)

Definition hw_240x320 : Adafruit_SPITFT :=
  {| connection := TFT_HARD_SPI; _width := 240; _height := 320 |}.

Definition sw_240x320 : Adafruit_SPITFT :=
  {| connection := TFT_SOFT_SPI; _width := 240; _height := 320 |}.

(** The state [initSPI] leaves behind on hardware SPI: buffer allocated
    and zeroed, chip-select HIGH, nothing sent yet. *)
Definition fresh_state : tft_state :=
  {| spi_buffer := replicate (Z.to_nat SPI_BUFFER_SIZE) 0;
     cs_pin := true;
     trace := [] |}.

(** The buffer has been allocated by [initSPI]. *)
Definition buffer_ready (s : tft_state) : Prop :=
  length (spi_buffer s) = Z.to_nat SPI_BUFFER_SIZE.

(** A canvas as the constructors build it: positive [int16_t] bounds. *)
Definition canvas_ok (dev : Adafruit_SPITFT) : Prop :=
  0 < _width dev <= 32767 /\ 0 < _height dev <= 32767.

(** ** Vocabulary of the statements *)

(** [s] with [evs] appended to its trace. *)
Definition add_trace (s : tft_state) (evs : list bus_event) : tft_state :=
  {| spi_buffer := spi_buffer s; cs_pin := cs_pin s; trace := trace s ++ evs |}.

(** The pin activity of one bit-banged 16-bit word: for each bit, most
    significant first, the data line takes the bit's value and the clock
    is pulsed once. *)
Definition bitbang16_events (w : Z) : list bus_event :=
  flat_map (fun k => [EvMOSI (Z.testbit w (15 - Z.of_nat k)); EvSCK true; EvSCK false])
           (seq 0 16).

(** What one 16-bit data word looks like on each connection. *)
Definition word16_events (c : connection_t) (w : Z) : list bus_event :=
  match c with
  | TFT_HARD_SPI => [EvSpiBlock [to_uint8 (Z.shiftr w 8); to_uint8 w]]
  | TFT_SOFT_SPI => bitbang16_events w
  end.

Definition is_addr_window (e : bus_event) : bool :=
  match e with EvAddrWindow _ _ _ _ => true | _ => false end.


(** Columns (or rows) covered by an origin and a signed extent: a positive
    extent grows away from the origin, a negative one back towards it,
    the origin included. *)
Definition span_signed (x w p : Z) : Prop :=
  (0 < w /\ x <= p < x + w) \/ (w < 0 /\ x + w < p <= x).

(** Columns (or rows) covered by an origin and a non-negative extent. *)
Definition span (x w p : Z) : Prop := x <= p < x + w.

Definition on_canvas (dev : Adafruit_SPITFT) (px py : Z) : Prop :=
  0 <= px < _width dev /\ 0 <= py < _height dev.

(** What the normalization of both axes is expected to achieve at
    [(x, y, w, h)]: non-negative extents and the pixel set of the signed
    request. *)
Definition normalization_claim (x y w h : Z) : Prop :=
  let '(x', w') := normalize_extent x w in
  let '(y', h') := normalize_extent y h in
  0 <= w' /\ 0 <= h' /\
  forall px py,
    (span x' w' px /\ span y' h' py) <-> (span_signed x w px /\ span_signed y h py).

(** [s] with its scratch buffer replaced by [b]. *)
Definition with_buffer (s : tft_state) (b : list Z) : tft_state :=
  {| spi_buffer := b; cs_pin := cs_pin s; trace := trace s |}.

(** Wire bytes of a run of pixels, each one high byte first. *)
Definition pack_hi_lo (pixels : list Z) : list Z :=
  flat_map (fun c => [highByte c; lowByte c]) pixels.

(** The [n]-fold repetition of the two wire bytes of [color]. *)
Definition color_pattern (n : nat) (color : Z) : list Z :=
  concat (replicate n [highByte color; lowByte color]).

(** Sizes of the block transfers that move [total] bytes through the
    scratch buffer: full buffers, then the remainder if there is one. *)
Definition chunk_sizes (total : Z) : list Z :=
  if total <=? 0 then []
  else replicate (Z.to_nat (total / SPI_BUFFER_SIZE)) SPI_BUFFER_SIZE
       ++ (if total mod SPI_BUFFER_SIZE =? 0 then [] else [total mod SPI_BUFFER_SIZE]).

(** The blocks sent when [total] bytes are transferred from an unchanging
    buffer [buf]: each one a prefix of [buf]. *)
Definition prefix_blocks (buf : list Z) (total : Z) : list bus_event :=
  map (fun n => EvSpiBlock (take (Z.to_nat n) buf)) (chunk_sizes total).

(** Sizes of the block transfers recorded in a trace. *)
Definition transfer_sizes (t : list bus_event) : list Z :=
  flat_map (fun e => match e with
                     | EvSpiBlock bytes => [Z.of_nat (length bytes)]
                     | _ => []
                     end) t.

(** The [n] pixels a pointer designates. *)
Definition pixels_at (p : u16ptr) (n : Z) : list Z :=
  take (Z.to_nat n) (drop (Z.to_nat (idx p)) (arr p)).

(** The pointer designates at least [n] elements of its array. *)
Definition readable (p : u16ptr) (n : Z) : Prop :=
  0 <= idx p /\ idx p + n <= Z.of_nat (length (arr p)).

(** Bytes of a run of [uint16_t] values in the order they lie in the
    (little-endian) memory of the target. *)
Definition memory_bytes (pixels : list Z) : list Z :=
  flat_map (fun c => [lowByte c; highByte c]) pixels.

(** What C1 says goes out on hardware SPI, following its words: with
    [bigEndian] the bytes leave as they lie in memory, without it each
    pixel leaves high byte first. *)
Definition writePixels_claimed_bytes (pixels : list Z) (bigEndian : bool) : list Z :=
  if bigEndian then memory_bytes pixels else pack_hi_lo pixels.

(** All bytes of the block transfers recorded in a trace, in order. *)
Definition transferred_bytes (t : list bus_event) : list Z :=
  flat_map (fun e => match e with
                     | EvSpiBlock bytes => bytes
                     | _ => []
                     end) t.

(** What a run of pixels looks like on each connection when it fits one
    buffer: a single block, or one bit-banged word per pixel. *)
Definition pixel_run_events (c : connection_t) (pixels : list Z) : list bus_event :=
  match c with
  | TFT_HARD_SPI => [EvSpiBlock (pack_hi_lo pixels)]
  | TFT_SOFT_SPI => flat_map bitbang16_events pixels
  end.

(** [rows] calls of [writePixels] for [w] pixels each, the pointer moving
    on by [saveW] elements between them. *)
Fixpoint row_transfers (dev : Adafruit_SPITFT) (p : u16ptr) (w saveW : Z) (rows : nat) : M unit :=
  match rows with
  | O => ret tt
  | S rows' =>
      writePixels dev p w true false ;;;
      row_transfers dev (ptr_add p saveW) w saveW rows'
  end.

(** The byte of an XBM bitmap, [byteWidth] bytes per scanline, that holds
    column [i] of row [j]. *)
Definition xbitmap_byte (bitmap : list Z) (byteWidth j i : Z) : Z :=
  default 0 (bitmap !! Z.to_nat (j * byteWidth + i / 8)).

(** Bit orders within a byte: which bit serves the [k]-th of its 8 columns. *)
Definition lsb_first (k : Z) : Z := k.
Definition msb_first (k : Z) : Z := 7 - k.

(** Color of column [i] of row [j]: foreground if the bit that serves the
    column is set, background otherwise. *)
Definition xbitmap_pixel (bit_of : Z -> Z) (bitmap : list Z) (byteWidth : Z)
           (fg_color bg_color : Z) (j i : Z) : Z :=
  if Z.testbit (xbitmap_byte bitmap byteWidth j i) (bit_of (i mod 8))
  then fg_color else bg_color.

(** Colors of columns [first .. first + n - 1] of row [j]. *)
Definition xbitmap_pixels (bit_of : Z -> Z) (bitmap : list Z) (byteWidth : Z)
           (fg_color bg_color : Z) (j : Z) (first n : nat) : list Z :=
  map (fun i => xbitmap_pixel bit_of bitmap byteWidth fg_color bg_color j (Z.of_nat i))
      (seq first n).

(** What drawing rows [first .. first + n - 1] of a [w]-wide bitmap at
    [(x, y)] puts on the bus under a given bit order: per row a one-row
    window and one block with the row's colors, high byte first. *)
Definition xbitmap_events (bit_of : Z -> Z) (x y : Z) (bitmap : list Z)
           (w : Z) (fg_color bg_color : Z) (first n : nat) : list bus_event :=
  flat_map (fun j =>
              [EvAddrWindow x (y + Z.of_nat j) w 1;
               EvSpiBlock (pack_hi_lo
                             (xbitmap_pixels bit_of bitmap ((w + 7) / 8)
                                             fg_color bg_color (Z.of_nat j)
                                             0 (Z.to_nat w)))])
           (seq first n).

(** ** Further member functions *)

Definition SPI_DC_HIGH : M unit := emit (EvDC true).
Definition SPI_DC_LOW : M unit := emit (EvDC false).

(** [void writeFastHLine(int16_t x, int16_t y, int16_t w, uint16_t color)] *)
Definition writeFastHLine (dev : Adafruit_SPITFT) (x y w color : Z) : M unit :=
  when ((y >=? 0) && (y <? _height dev) && negb (w =? 0))
    (let '(x, w) := normalize_extent x w in
     when (x <? _width dev)
       (let x2 := to_int16 (x + w - 1) in
        when (x2 >=? 0)
          (let '(x, w) := clip_near x w x2 in
           let w := clip_far x w x2 (_width dev) in
           writeFillRectPreclipped dev x y w 1 color))).

(** [void writeFastVLine(int16_t x, int16_t y, int16_t h, uint16_t color)] *)
Definition writeFastVLine (dev : Adafruit_SPITFT) (x y h color : Z) : M unit :=
  when ((x >=? 0) && (x <? _width dev) && negb (h =? 0))
    (let '(y, h) := normalize_extent y h in
     when (y <? _height dev)
       (let y2 := to_int16 (y + h - 1) in
        when (y2 >=? 0)
          (let '(y, h) := clip_near y h y2 in
           let h := clip_far y h y2 (_height dev) in
           writeFillRectPreclipped dev x y 1 h color))).

(** One bit of a bit-banged byte, as in the soft-SPI branch of
    [SPI_WRITE8]: data line from bit 7, clock high, shift, clock low. *)
Definition bitbang8_step (bit : Z) (b : Z) : M Z :=
  (if Z.land b 128 =? 0 then SPI_MOSI_LOW else SPI_MOSI_HIGH) ;;;
  SPI_SCK_HIGH ;;;
  SPI_SCK_LOW ;;;
  ret (to_uint8 (Z.shiftl b 1)).

(** [void SPI_WRITE8(uint8_t b)] *)
Definition SPI_WRITE8 (dev : Adafruit_SPITFT) (b : Z) : M unit :=
  match connection dev with
  | TFT_HARD_SPI => emit (EvSpiByte (to_uint8 b))
  | TFT_SOFT_SPI => for_n 8 0 b bitbang8_step ;;; ret tt
  end.

(** One bit of a bit-banged 32-bit word, as in [SPI_WRITE32]. *)
Definition bitbang32_step (bit : Z) (l : Z) : M Z :=
  (if Z.land l 2147483648 =? 0 then SPI_MOSI_LOW else SPI_MOSI_HIGH) ;;;
  SPI_SCK_HIGH ;;;
  SPI_SCK_LOW ;;;
  ret (to_uint32 (Z.shiftl l 1)).

(** [void SPI_WRITE32(uint32_t l)] *)
Definition SPI_WRITE32 (dev : Adafruit_SPITFT) (l : Z) : M unit :=
  match connection dev with
  | TFT_HARD_SPI =>
      emit (EvSpiBlock [to_uint8 (Z.shiftr l 24); to_uint8 (Z.shiftr l 16);
                        to_uint8 (Z.shiftr l 8); to_uint8 l])
  | TFT_SOFT_SPI => for_n 32 0 l bitbang32_step ;;; ret tt
  end.

(** [void writeCommand(uint8_t cmd)] *)
Definition writeCommand (dev : Adafruit_SPITFT) (cmd : Z) : M unit :=
  SPI_DC_LOW ;;;
  SPI_WRITE8 dev cmd ;;;
  SPI_DC_HIGH.

(** ** Vocabulary of the further statements *)

(** Pin activity of [n] bit-banged bits of [v], starting with bit [top]
    and going down. *)
Definition bitbang_events (top : Z) (n : nat) (v : Z) : list bus_event :=
  flat_map (fun k => [EvMOSI (Z.testbit v (top - Z.of_nat k)); EvSCK true; EvSCK false])
           (seq 0 n).

(** The part of the canvas a signed request covers: lowest covered
    coordinate clamped to 0, and the clamped extent. *)
Definition span_low (x w : Z) : Z := Z.min x (x + w + 1).
Definition span_high (x w : Z) : Z := Z.max x (x + w - 1).
Definition clipped_origin (x w : Z) : Z := Z.max (span_low x w) 0.
Definition clipped_extent (x w bound : Z) : Z :=
  Z.min (span_high x w) (bound - 1) - clipped_origin x w + 1.

(** What one byte looks like on each connection. *)
Definition byte_events (c : connection_t) (b : Z) : list bus_event :=
  match c with
  | TFT_HARD_SPI => [EvSpiByte (to_uint8 b)]
  | TFT_SOFT_SPI => bitbang_events 7 8 b
  end.

(** The two bytes [SPI_WRITE16] hands to the SPI peripheral. *)
Definition word16_bytes (w : Z) : list Z :=
  [to_uint8 (Z.shiftr w 8); to_uint8 w].

(** Offset into the source bitmap of the first visible pixel: rows and
    columns cut off at the top and on the left. *)
Definition clipped_rows (y : Z) : Z := Z.max y 0 - y.
Definition clipped_columns (x : Z) : Z := Z.max x 0 - x.

(** ** Facts about the integer conversions *)

Section IntFacts.

Lemma to_int16_id z : is_int16 z -> to_int16 z = z.
Proof.
  unfold is_int16, to_int16. intros H.
  rewrite Z.mod_small by lia. lia.
Qed.

Lemma to_int16_range z : is_int16 (to_int16 z).
Proof.
  unfold is_int16, to_int16.
  pose proof (Z.mod_pos_bound (z + 32768) 65536). lia.
Qed.

Lemma to_uint16_id z : is_uint16 z -> to_uint16 z = z.
Proof. unfold is_uint16, to_uint16. intros H. apply Z.mod_small. lia. Qed.

Lemma to_uint8_id z : is_uint8 z -> to_uint8 z = z.
Proof. unfold is_uint8, to_uint8. intros H. apply Z.mod_small. lia. Qed.

Lemma to_uint32_id z : is_uint32 z -> to_uint32 z = z.
Proof. unfold is_uint32, to_uint32. intros H. apply Z.mod_small. lia. Qed.

Lemma to_int_id z : -2147483648 <= z <= 2147483647 -> to_int z = z.
Proof. unfold to_int. intros H. rewrite Z.mod_small by lia. lia. Qed.

End IntFacts.

(** ** Bit-level facts *)

Section Bits.

Lemma land_shifted_ones x n k :
  0 <= n -> 0 <= k ->
  Z.land x (Z.shiftl (Z.ones n) k) = ((x / 2 ^ k) mod 2 ^ n) * 2 ^ k.
Proof.
  intros Hn Hk.
  rewrite <- Z.shiftr_div_pow2, <- Z.land_ones, <- Z.shiftl_mul_pow2 by lia.
  apply Z.bits_inj'. intros i Hi.
  rewrite Z.land_spec.
  destruct (Z.lt_ge_cases i k) as [Hlt | Hge].
  - rewrite !Z.shiftl_spec_low by lia. apply andb_false_r.
  - rewrite !Z.shiftl_spec by lia.
    rewrite Z.land_spec, Z.shiftr_spec by lia.
    replace (i - k + k) with i by lia. reflexivity.
Qed.

Lemma lor_disjoint a b k :
  0 <= k -> 0 <= b < 2 ^ k -> Z.lor (a * 2 ^ k) b = a * 2 ^ k + b.
Proof.
  intros Hk Hb.
  assert (Hz : Z.land (a * 2 ^ k) b = 0).
  { apply Z.bits_inj'. intros i Hi.
    rewrite Z.land_spec, Z.bits_0.
    destruct (Z.lt_ge_cases i k) as [Hlt | Hge].
    - rewrite Z.mul_pow2_bits_low by lia. reflexivity.
    - rewrite <- (Z.mod_small b (2 ^ k)) by lia.
      rewrite Z.mod_pow2_bits_high by lia. apply andb_false_r. }
  pose proof (Z.add_lor_land (a * 2 ^ k) b) as H.
  rewrite Hz in H. lia.
Qed.

Lemma highByte_div w : is_uint16 w -> highByte w = w / 256.
Proof.
  unfold is_uint16, highByte. intros H.
  rewrite Z.shiftr_div_pow2 by lia. change (2 ^ 8) with 256.
  apply to_uint8_id. unfold is_uint8.
  split; [apply Z.div_pos | apply Z.div_lt_upper_bound]; lia.
Qed.

Lemma lowByte_mod w : lowByte w = w mod 256.
Proof.
  unfold lowByte, to_uint8. change 255 with (Z.ones 8).
  rewrite Z.land_ones by lia. change (2 ^ 8) with 256.
  apply Z.mod_mod. lia.
Qed.

Lemma highByte_range w : is_uint8 (highByte w).
Proof. unfold highByte, to_uint8, is_uint8. apply Z.mod_pos_bound. lia. Qed.

Lemma lowByte_range w : is_uint8 (lowByte w).
Proof. unfold lowByte, to_uint8, is_uint8. apply Z.mod_pos_bound. lia. Qed.

(** [SWAP_BYTES] exchanges the two bytes of a 16-bit value. *)
Lemma SWAP_BYTES_value x :
  is_uint16 x -> SWAP_BYTES x = lowByte x * 256 + highByte x.
Proof.
  intros Hx. rewrite highByte_div, lowByte_mod by assumption.
  unfold is_uint16 in Hx. unfold SWAP_BYTES.
  change 65280 with (Z.shiftl (Z.ones 8) 8).
  rewrite land_shifted_ones by lia.
  change 255 with (Z.ones 8). rewrite !Z.land_ones by lia.
  rewrite Z.shiftl_mul_pow2, Z.shiftr_div_pow2 by lia.
  change (2 ^ 8) with 256.
  assert (0 <= x / 256 < 256)
    by (split; [apply Z.div_pos | apply Z.div_lt_upper_bound]; lia).
  pose proof (Z.mod_pos_bound x 256).
  rewrite (Z.mod_small (x / 256)) by lia.
  rewrite Z.div_mul by lia.
  rewrite (Z.mod_small (x / 256)) by lia.
  change 256 with (2 ^ 8) at 2.
  rewrite lor_disjoint by (change (2 ^ 8) with 256; lia).
  change (2 ^ 8) with 256.
  apply to_uint16_id. unfold is_uint16. lia.
Qed.

Lemma color565_value r g b :
  is_uint8 r -> is_uint8 g -> is_uint8 b ->
  color565 r g b = (r / 8) * 2048 + (g / 4) * 32 + b / 8.
Proof.
  unfold is_uint8, color565. intros Hr Hg Hb.
  change 248 with (Z.shiftl (Z.ones 5) 3).
  change 252 with (Z.shiftl (Z.ones 6) 2).
  rewrite !land_shifted_ones by lia.
  rewrite !Z.shiftl_mul_pow2, Z.shiftr_div_pow2 by lia.
  change (2 ^ 3) with 8. change (2 ^ 2) with 4. change (2 ^ 5) with 32.
  change (2 ^ 6) with 64. change (2 ^ 8) with 256.
  assert (0 <= r / 8 < 32)
    by (split; [apply Z.div_pos | apply Z.div_lt_upper_bound]; lia).
  assert (0 <= g / 4 < 64)
    by (split; [apply Z.div_pos | apply Z.div_lt_upper_bound]; lia).
  assert (0 <= b / 8 < 32)
    by (split; [apply Z.div_pos | apply Z.div_lt_upper_bound]; lia).
  rewrite (Z.mod_small (r / 8)), (Z.mod_small (g / 4)) by lia.
  replace (r / 8 * 8 * 256) with ((r / 8 * 64) * 2 ^ 5) by lia.
  replace (g / 4 * 4 * 8) with ((g / 4) * 2 ^ 5) by lia.
  rewrite <- Z.lor_assoc.
  rewrite (lor_disjoint (g / 4) (b / 8) 5) by (change (2 ^ 5) with 32; lia).
  replace (r / 8 * 64 * 2 ^ 5) with ((r / 8) * 2 ^ 11) by lia.
  rewrite lor_disjoint
    by (change (2 ^ 11) with 2048; change (2 ^ 5) with 32; lia).
  change (2 ^ 11) with 2048; change (2 ^ 5) with 32.
  rewrite to_uint16_id by (unfold is_uint16; lia).
  lia.
Qed.

End Bits.

(** ** color565 *)

(** C9. [color565 255 255 255 = 0xFFFF], [color565 0 0 0 = 0],
    [color565 255 0 0 = 0xF800]; and for all 8-bit channel values the
    result is a 16-bit value whose bits 15..11 are the top 5 bits of red,
    bits 10..5 the top 6 bits of green and bits 4..0 the top 5 bits of
    blue. *)
Theorem color565_packs_565 (r g b : Z) :
  is_uint8 r -> is_uint8 g -> is_uint8 b ->
  color565 255 255 255 = 65535 /\
  color565 0 0 0 = 0 /\
  color565 255 0 0 = 63488 /\
  is_uint16 (color565 r g b) /\
  Z.shiftr (color565 r g b) 11 = Z.shiftr r 3 /\
  Z.land (Z.shiftr (color565 r g b) 5) 63 = Z.shiftr g 2 /\
  Z.land (color565 r g b) 31 = Z.shiftr b 3.
Proof.
  intros Hr Hg Hb.
  do 3 (split; [reflexivity |]).
  rewrite color565_value by assumption.
  unfold is_uint8 in *.
  change 63 with (Z.ones 6). change 31 with (Z.ones 5).
  rewrite !Z.land_ones, !Z.shiftr_div_pow2 by lia.
  change (2 ^ 11) with 2048. change (2 ^ 5) with 32. change (2 ^ 6) with 64.
  change (2 ^ 3) with 8. change (2 ^ 2) with 4.
  assert (0 <= r / 8 < 32)
    by (split; [apply Z.div_pos | apply Z.div_lt_upper_bound]; lia).
  assert (0 <= g / 4 < 64)
    by (split; [apply Z.div_pos | apply Z.div_lt_upper_bound]; lia).
  assert (0 <= b / 8 < 32)
    by (split; [apply Z.div_pos | apply Z.div_lt_upper_bound]; lia).
  set (a := r / 8) in *. set (c := g / 4) in *. set (d := b / 8) in *.
  split; [unfold is_uint16; lia |].
  split; [symmetry; apply (Z.div_unique _ _ _ (c * 32 + d)); lia |].
  split.
  - replace ((a * 2048 + c * 32 + d) / 32) with (a * 64 + c)
      by (apply (Z.div_unique _ _ _ d); lia).
    symmetry. apply (Z.mod_unique _ _ a); lia.
  - symmetry. apply (Z.mod_unique _ _ (a * 64 + c)); lia.
Qed.

Lemma color565_packs_565_witness :
  color565 255 255 255 = 65535 /\
  color565 0 0 0 = 0 /\
  color565 255 0 0 = 63488 /\
  is_uint16 (color565 18 52 86) /\
  Z.shiftr (color565 18 52 86) 11 = Z.shiftr 18 3 /\
  Z.land (Z.shiftr (color565 18 52 86) 5) 63 = Z.shiftr 52 2 /\
  Z.land (color565 18 52 86) 31 = Z.shiftr 86 3.
Proof.
  apply (color565_packs_565 18 52 86); unfold is_uint8; lia.
Defined.

(** ** Running the primitives *)

Lemma add_trace_nil s : add_trace s [] = s.
Proof. destruct s. unfold add_trace. simpl. by rewrite app_nil_r. Qed.

Lemma add_trace_app s a b : add_trace (add_trace s a) b = add_trace s (a ++ b).
Proof. unfold add_trace. simpl. by rewrite app_assoc. Qed.

Lemma emit_run e s : emit e s = Some (tt, add_trace s [e]).
Proof. reflexivity. Qed.

(** Unfold the pin and trace primitives and compute. *)
Ltac run_prims :=
  cbv beta iota delta
    [bind ret when emit read_cs write_cs pin_read SPI_CS_LOW SPI_CS_HIGH
     SPI_MOSI_LOW SPI_MOSI_HIGH SPI_SCK_LOW SPI_SCK_HIGH
     SPI_BEGIN_TRANSACTION SPI_END_TRANSACTION setAddrWindow add_trace];
  simpl.

Lemma startWrite_run s :
  startWrite s =
  Some (tt, {| spi_buffer := spi_buffer s; cs_pin := false;
               trace := trace s ++ [EvStartWrite; EvCS false] |}).
Proof.
  destruct s as [b [] t]; unfold startWrite; run_prims;
    by rewrite <- app_assoc.
Qed.

Lemma endWrite_run s :
  endWrite s =
  Some (tt, {| spi_buffer := spi_buffer s; cs_pin := true;
               trace := trace s ++ [EvCS true; EvEndWrite] |}).
Proof.
  destruct s as [b [] t]; unfold endWrite; run_prims;
    by rewrite <- app_assoc.
Qed.

(** ** Bit-banged words *)

Lemma bit15_test w : (Z.land w 32768 =? 0) = negb (Z.testbit w 15).
Proof.
  assert (H : Z.land w (2 ^ 15) = if Z.testbit w 15 then 2 ^ 15 else 0).
  { apply Z.bits_inj'. intros i Hi.
    rewrite Z.land_spec, Z.pow2_bits_eqb by lia.
    destruct (Z.testbit w 15) eqn:E.
    - rewrite Z.pow2_bits_eqb by lia.
      destruct (Z.eqb_spec 15 i) as [<- | Hne];
        [by rewrite E | by rewrite andb_false_r].
    - rewrite Z.bits_0.
      destruct (Z.eqb_spec 15 i) as [<- | Hne];
        [by rewrite E | by rewrite andb_false_r]. }
  change 32768 with (2 ^ 15). rewrite H. by destruct (Z.testbit w 15).
Qed.

Lemma bitbang16_step_run bit w s :
  bitbang16_step bit w s =
  Some (to_uint16 (Z.shiftl w 1),
        add_trace s [EvMOSI (Z.testbit w 15); EvSCK true; EvSCK false]).
Proof.
  unfold bitbang16_step. rewrite bit15_test.
  destruct (Z.testbit w 15); run_prims; by rewrite <- !app_assoc.
Qed.

Lemma bitbang16_loop c n : forall i j w s,
  (Z.of_nat j + Z.of_nat n <= 16) ->
  to_uint16 w = to_uint16 (Z.shiftl c (Z.of_nat j)) ->
  exists w',
    for_n n i w bitbang16_step s =
    Some (w', add_trace s
                (flat_map (fun k => [EvMOSI (Z.testbit c (15 - Z.of_nat k));
                                     EvSCK true; EvSCK false])
                          (seq j n))).
Proof.
  induction n as [| n IH]; intros i j w s Hj Hw.
  - exists w. simpl. by rewrite add_trace_nil.
  - simpl. unfold bind at 1. rewrite bitbang16_step_run.
    destruct (IH (i + 1) (S j) (to_uint16 (Z.shiftl w 1))
                 (add_trace s [EvMOSI (Z.testbit w 15); EvSCK true; EvSCK false]))
      as [w' Hw']; [lia | |].
    + unfold to_uint16 in *.
      rewrite Z.mod_mod by lia.
      rewrite Nat2Z.inj_succ, <- Z.add_1_r.
      rewrite <- Z.shiftl_shiftl by lia.
      rewrite !Z.shiftl_mul_pow2 by lia.
      change (2 ^ 1) with 2.
      rewrite <- (Z.mul_mod_idemp_l w), Hw, Z.mul_mod_idemp_l by lia.
      by rewrite <- Z.shiftl_mul_pow2 by lia.
    + exists w'. rewrite Hw', add_trace_app. do 3 f_equal.
      assert (Hb : Z.testbit w 15 = Z.testbit c (15 - Z.of_nat j)).
      { rewrite <- (Z.mod_pow2_bits_low w 16 15) by lia.
        change (2 ^ 16) with 65536. unfold to_uint16 in Hw. rewrite Hw.
        change 65536 with (2 ^ 16).
        rewrite Z.mod_pow2_bits_low, Z.shiftl_spec by lia. reflexivity. }
      by rewrite Hb.
Qed.

Lemma bitbang16_word w i s :
  exists w', for_n 16 i w bitbang16_step s = Some (w', add_trace s (bitbang16_events w)).
Proof.
  apply (bitbang16_loop w 16 i 0%nat w s); [lia |].
  by rewrite Z.shiftl_0_r.
Qed.

Lemma SPI_WRITE16_run dev w s :
  SPI_WRITE16 dev w s = Some (tt, add_trace s (word16_events (connection dev) w)).
Proof.
  unfold SPI_WRITE16, word16_events. destruct (connection dev).
  - reflexivity.
  - unfold bind. destruct (bitbang16_word w 0 s) as [w' ->]. reflexivity.
Qed.

Lemma word16_no_window c w : forallb (fun e => negb (is_addr_window e)) (word16_events c w) = true.
Proof. destruct c; reflexivity. Qed.

(** ** pushColor *)

(** C10. For every device (whatever its canvas bounds), color and state,
    [pushColor] succeeds and adds to the trace exactly: the opening
    bracket, one 16-bit data word, the closing bracket. None of the added
    events is an address-window request. *)
Theorem pushColor_one_word (dev : Adafruit_SPITFT) (color : Z) (s : tft_state) :
  let added := [EvStartWrite; EvCS false]
               ++ word16_events (connection dev) color
               ++ [EvCS true; EvEndWrite] in
  pushColor dev color s =
    Some (tt, {| spi_buffer := spi_buffer s; cs_pin := true;
                 trace := trace s ++ added |})
  /\ forallb (fun e => negb (is_addr_window e)) added = true.
Proof.
  simpl. split.
  - unfold pushColor, bind.
    rewrite startWrite_run, SPI_WRITE16_run, endWrite_run. simpl.
    by rewrite <- !app_assoc.
  - rewrite forallb_app. simpl. by rewrite word16_no_window.
Qed.

(** ** Geometry: normalization, clipping, rejection *)

Lemma to_int16_cases z :
  is_int16 (to_int16 z) /\ exists k, to_int16 z = z + 65536 * k.
Proof.
  split; [apply to_int16_range |].
  unfold to_int16. exists (- ((z + 32768) / 65536)).
  pose proof (Z.div_mod (z + 32768) 65536). lia.
Qed.

(** C6 (amended). For every 16-bit rectangle request with a negative
    width or height, provided each negative extent is above -32768 and
    the origin shifted by it is still a 16-bit value, normalization
    yields non-negative extents and the pixel set of the signed request. *)
Theorem normalize_extent_same_pixels (x y w h : Z) :
  is_int16 x -> is_int16 y -> is_int16 w -> is_int16 h ->
  w < 0 \/ h < 0 ->
  (w < 0 -> -32768 < w /\ -32768 <= x + w + 1) ->
  (h < 0 -> -32768 < h /\ -32768 <= y + h + 1) ->
  normalization_claim x y w h.
Proof.
  unfold is_int16, normalization_claim, normalize_extent, span, span_signed.
  intros Hx Hy Hw Hh Hneg Hwr Hhr.
  destruct (Z.ltb_spec w 0); destruct (Z.ltb_spec h 0);
    rewrite ?to_int16_id by (unfold is_int16; lia);
    (split; [lia | split; [lia | intros px py; lia]]).
Qed.

Lemma normalize_extent_same_pixels_witness : normalization_claim 10 20 (-4) 3.
Proof.
  apply normalize_extent_same_pixels; unfold is_int16; lia.
Defined.

(** C6 (as stated) fails: a width of -32768 is still -32768 after
    [w = -w] on an [int16_t]. *)
Lemma normalization_claim_fails_at_min_width :
  is_int16 0 /\ is_int16 (-32768) /\ is_int16 1 /\ -32768 < 0 /\
  normalize_extent 0 (-32768) = (-32767, -32768) /\
  ~ normalization_claim 0 0 (-32768) 1.
Proof.
  unfold is_int16. repeat (split; [lia || reflexivity |]).
  unfold normalization_claim.
  change (normalize_extent 0 (-32768)) with (-32767, -32768).
  change (normalize_extent 0 1) with (0, 1).
  intros [H _]. lia.
Qed.

(** C7. A rectangle with positive extents that lies inside the canvas
    passes through the clipping of [writeFillRect] and [fillRect]
    unchanged: [writeFillRectPreclipped] receives the input [x y w h]. *)
Theorem clip_is_noop_inside (dev : Adafruit_SPITFT) (x y w h color : Z) :
  canvas_ok dev ->
  0 < w -> 0 < h -> 0 <= x -> 0 <= y ->
  x + w <= _width dev -> y + h <= _height dev ->
  writeFillRect dev x y w h color = writeFillRectPreclipped dev x y w h color
  /\ fillRect dev x y w h color =
     (startWrite ;;; writeFillRectPreclipped dev x y w h color ;;; endWrite).
Proof.
  intros [HW HH] Hw Hh Hx Hy Hxw Hyh.
  unfold writeFillRect, fillRect, normalize_extent.
  rewrite (proj2 (Z.eqb_neq w 0)), (proj2 (Z.eqb_neq h 0)),
    (proj2 (Z.ltb_ge w 0)), (proj2 (Z.ltb_ge h 0)),
    (proj2 (Z.ltb_lt x (_width dev))), (proj2 (Z.ltb_lt y (_height dev)))
    by lia.
  cbv beta iota zeta delta [when negb andb].
  rewrite !(to_int16_id (x + w - 1)), !(to_int16_id (y + h - 1))
    by (unfold is_int16; lia).
  unfold clip_near, clip_far.
  rewrite !Z.geb_leb.
  rewrite (proj2 (Z.leb_le 0 (x + w - 1))), (proj2 (Z.leb_le 0 (y + h - 1))),
    (proj2 (Z.ltb_ge x 0)), (proj2 (Z.ltb_ge y 0)),
    (proj2 (Z.leb_gt (_width dev) (x + w - 1))),
    (proj2 (Z.leb_gt (_height dev) (y + h - 1)))
    by lia.
  split; reflexivity.
Qed.

Lemma clip_is_noop_inside_witness :
  writeFillRect hw_240x320 10 20 30 40 4660
  = writeFillRectPreclipped hw_240x320 10 20 30 40 4660
  /\ fillRect hw_240x320 10 20 30 40 4660 =
     (startWrite ;;; writeFillRectPreclipped hw_240x320 10 20 30 40 4660 ;;; endWrite).
Proof.
  apply clip_is_noop_inside; unfold canvas_ok; simpl; lia.
Defined.

(** Name every [to_int16 e] in sight and keep only its range and its
    congruence with [e]. *)
Ltac int16_abstract :=
  repeat match goal with
         | H : context [to_int16 ?e] |- _ =>
             let v := fresh "v" in
             let Hr := fresh "Hr" in
             let k := fresh "k" in
             let Hk := fresh "Hk" in
             destruct (to_int16_cases e) as [Hr [k Hk]];
             unfold is_int16 in Hr;
             set (v := to_int16 e) in *; clearbody v
         | |- context [to_int16 ?e] =>
             let v := fresh "v" in
             let Hr := fresh "Hr" in
             let k := fresh "k" in
             let Hk := fresh "Hk" in
             destruct (to_int16_cases e) as [Hr [k Hk]];
             unfold is_int16 in Hr;
             set (v := to_int16 e) in *; clearbody v
         end.

(** Decide the next guard of a nest of [when]s; a failed guard ends the
    operation with the state untouched. *)
Ltac next_guard :=
  match goal with
  | |- context [?a =? ?b] => destruct (Z.eqb_spec a b)
  | |- context [?a <? ?b] => destruct (Z.ltb_spec a b)
  | |- context [?a >=? ?b] => rewrite (Z.geb_leb a b); destruct (Z.leb_spec b a)
  end;
  cbv beta iota zeta delta [when negb andb orb];
  try reflexivity.

Lemma drawPixel_rejects dev x y color s :
  ~ on_canvas dev x y -> drawPixel dev x y color s = Some (tt, s).
Proof.
  unfold on_canvas, drawPixel. intros H.
  repeat next_guard. lia.
Qed.

Lemma fillRect_rejects dev x y w h color s :
  canvas_ok dev ->
  is_int16 x -> is_int16 y -> is_int16 w -> is_int16 h ->
  (w = 0 \/ h = 0 \/
   forall px py, span_signed x w px -> span_signed y h py -> ~ on_canvas dev px py) ->
  fillRect dev x y w h color s = Some (tt, s).
Proof.
  unfold canvas_ok, is_int16, span_signed, on_canvas.
  intros [HW HH] Hx Hy Hw Hh Hout.
  unfold fillRect, normalize_extent.
  repeat next_guard; exfalso;
    (destruct Hout as [-> | [-> | Hout]]; [lia | lia |]);
    apply (Hout (Z.max (Z.min x (x + w + 1)) 0) (Z.max (Z.min y (y + h + 1)) 0));
    int16_abstract; lia.
Qed.

Lemma drawFastHLine_rejects dev x y w color s :
  canvas_ok dev ->
  is_int16 x -> is_int16 y -> is_int16 w ->
  (w = 0 \/ forall px, span_signed x w px -> ~ on_canvas dev px y) ->
  drawFastHLine dev x y w color s = Some (tt, s).
Proof.
  unfold canvas_ok, is_int16, span_signed, on_canvas.
  intros [HW HH] Hx Hy Hw Hout.
  unfold drawFastHLine, normalize_extent.
  repeat next_guard; exfalso;
    (destruct Hout as [-> | Hout]; [lia |]);
    apply (Hout (Z.max (Z.min x (x + w + 1)) 0));
    int16_abstract; lia.
Qed.

Lemma drawFastVLine_rejects dev x y h color s :
  canvas_ok dev ->
  is_int16 x -> is_int16 y -> is_int16 h ->
  (h = 0 \/ forall py, span_signed y h py -> ~ on_canvas dev x py) ->
  drawFastVLine dev x y h color s = Some (tt, s).
Proof.
  unfold canvas_ok, is_int16, span_signed, on_canvas.
  intros [HW HH] Hx Hy Hh Hout.
  unfold drawFastVLine, normalize_extent.
  repeat next_guard; exfalso;
    (destruct Hout as [-> | Hout]; [lia |]);
    apply (Hout (Z.max (Z.min y (y + h + 1)) 0));
    int16_abstract; lia.
Qed.

(** A bitmap with positive extents that misses the canvas is rejected
    before the transaction is opened. *)
Lemma drawRGBBitmap_rejects dev x y pcolors w h s :
  canvas_ok dev ->
  is_int16 x -> is_int16 y -> is_int16 w -> is_int16 h ->
  0 < w -> 0 < h ->
  (forall px py, span x w px -> span y h py -> ~ on_canvas dev px py) ->
  drawRGBBitmap dev x y pcolors w h s = Some (tt, s).
Proof.
  unfold canvas_ok, is_int16, span, on_canvas.
  intros [HW HH] Hx Hy Hw Hh Hwp Hhp Hout.
  unfold drawRGBBitmap.
  repeat next_guard; exfalso;
    apply (Hout (Z.max x 0) (Z.max y 0));
    int16_abstract; lia.
Qed.

(** C4 (failing input). On a 240x320 canvas, [drawRGBBitmap] with a
    zero-extent bitmap at (5, 5) is not rejected: the transaction is
    opened and closed and an address window of zero extent is requested.
    The same happens for a bitmap of zero width and three rows. *)
Theorem drawRGBBitmap_zero_extent_not_rejected :
  exec (drawRGBBitmap hw_240x320 5 5 {| arr := []; idx := 0 |} 0 0) fresh_state
  = Some (add_trace fresh_state
            [EvStartWrite; EvCS false; EvAddrWindow 5 5 0 0; EvCS true; EvEndWrite])
  /\
  exec (drawRGBBitmap hw_240x320 5 5 {| arr := []; idx := 0 |} 0 3) fresh_state
  = Some (add_trace fresh_state
            [EvStartWrite; EvCS false; EvAddrWindow 5 5 0 3; EvCS true; EvEndWrite]).
Proof.
  split; vm_compute; reflexivity.
Qed.

(** ** The scratch buffer *)

Lemma with_buffer_same s : with_buffer s (spi_buffer s) = s.
Proof. by destruct s. Qed.

Lemma buf_store8_run i v s :
  0 <= i < Z.of_nat (length (spi_buffer s)) ->
  buf_store8 i v s =
  Some (tt, with_buffer s (<[Z.to_nat i := to_uint8 v]> (spi_buffer s))).
Proof.
  intros Hi. unfold buf_store8, bind, get_buffer, set_buffer.
  rewrite (proj2 (Z.leb_le 0 i)), (proj2 (Z.ltb_lt i _)) by lia.
  reflexivity.
Qed.

(** A 16-bit store into the slot that starts right after [done]. *)
Lemma buf_store16_run slot v done a b rest s :
  spi_buffer s = done ++ a :: b :: rest ->
  Z.of_nat (length done) = 2 * slot ->
  buf_store16 slot v s =
  Some (tt, with_buffer s (done ++ to_uint8 (Z.land v 255)
                                :: to_uint8 (Z.shiftr v 8) :: rest)).
Proof.
  intros Hb Hlen. unfold buf_store16, bind.
  rewrite buf_store8_run
    by (rewrite Hb, length_app; simpl; lia).
  rewrite buf_store8_run
    by (simpl; rewrite length_insert, Hb, length_app; simpl; lia).
  unfold with_buffer. simpl. do 3 f_equal.
  rewrite Hb.
  replace (Z.to_nat (2 * slot)) with (length done + 0)%nat by lia.
  rewrite insert_app_r. simpl.
  replace (Z.to_nat (2 * slot + 1)) with (length done + 1)%nat by lia.
  rewrite insert_app_r. reflexivity.
Qed.

Lemma store16_loop v n : forall i done rest s,
  spi_buffer s = done ++ rest ->
  Z.of_nat (length done) = 2 * i ->
  (2 * n <= length rest)%nat ->
  for_n n i tt (fun slot _ => buf_store16 slot v) s =
  Some (tt, with_buffer s
              (done
               ++ concat (replicate n [to_uint8 (Z.land v 255); to_uint8 (Z.shiftr v 8)])
               ++ drop (2 * n) rest)).
Proof.
  induction n as [| n IH]; intros i done rest s Hb Hlen Hn.
  - simpl. rewrite drop_0, <- Hb, with_buffer_same. reflexivity.
  - destruct rest as [| a [| b rest]]; simpl in Hn; try lia.
    simpl for_n. unfold bind at 1.
    rewrite (buf_store16_run i v done a b rest s Hb Hlen).
    rewrite (IH (i + 1)
                (done ++ [to_uint8 (Z.land v 255); to_uint8 (Z.shiftr v 8)])
                rest).
    + unfold with_buffer. simpl. do 3 f_equal.
      rewrite <- !app_assoc. simpl.
      replace (n + S (n + 0))%nat with (S (2 * n)) by lia. reflexivity.
    + simpl. by rewrite <- app_assoc.
    + rewrite length_app. simpl. lia.
    + lia.
Qed.

Lemma color_pattern_length n color : length (color_pattern n color) = (2 * n)%nat.
Proof.
  unfold color_pattern. induction n as [| n IH]; simpl in *; lia.
Qed.

Lemma color_pattern_lookup n color (k : nat) :
  (k < n)%nat ->
  color_pattern n color !! (2 * k)%nat = Some (highByte color)
  /\ color_pattern n color !! (2 * k + 1)%nat = Some (lowByte color).
Proof.
  revert k. unfold color_pattern.
  induction n as [| n IH]; intros k Hk; [lia |].
  destruct k as [| k]; [by simpl |].
  replace (2 * S k)%nat with (S (S (2 * k))) by lia.
  simpl. apply IH. lia.
Qed.

Lemma color_pattern_same_bytes n b color :
  highByte color = b -> lowByte color = b ->
  color_pattern n color = replicate (2 * n) b.
Proof.
  intros Hh Hl. unfold color_pattern. rewrite Hh, Hl.
  induction n as [| n IH]; [reflexivity |].
  replace (2 * S n)%nat with (S (S (2 * n))) by lia.
  simpl. by rewrite IH.
Qed.

(** The low byte of [SWAP_BYTES color] is the high byte of [color] and
    vice versa. *)
Lemma SWAP_BYTES_bytes color :
  is_uint16 color ->
  to_uint8 (Z.land (SWAP_BYTES color) 255) = highByte color
  /\ to_uint8 (Z.shiftr (SWAP_BYTES color) 8) = lowByte color.
Proof.
  intros Hc. rewrite SWAP_BYTES_value by assumption.
  pose proof (highByte_range color) as Hh.
  pose proof (lowByte_range color) as Hl.
  unfold is_uint8, to_uint8 in *.
  change 255 with (Z.ones 8). rewrite Z.land_ones, Z.shiftr_div_pow2 by lia.
  change (2 ^ 8) with 256.
  split.
  - rewrite Z.mod_mod by lia.
    symmetry. apply (Z.mod_unique _ _ (lowByte color)); lia.
  - replace ((lowByte color * 256 + highByte color) / 256) with (lowByte color)
      by (apply (Z.div_unique _ _ _ (highByte color)); lia).
    apply Z.mod_small. lia.
Qed.

(** Staging succeeds on an allocated buffer and leaves the wire pattern
    of the color in all 512 slots. *)
Lemma stage_color_run color s :
  is_uint16 color -> buffer_ready s ->
  stage_color color s = Some (tt, with_buffer s (color_pattern 512 color)).
Proof.
  intros Hc Hb. unfold buffer_ready in Hb.
  change (Z.to_nat SPI_BUFFER_SIZE) with 1024%nat in Hb.
  unfold stage_color.
  destruct (Z.eqb_spec (highByte color) (lowByte color)) as [Heq | Hne].
  - unfold buf_memset, bind, get_buffer, set_buffer.
    rewrite Hb. change (Z.to_nat SPI_BUFFER_SIZE) with (2 * 512)%nat.
    change ((0 <=? SPI_BUFFER_SIZE) && (SPI_BUFFER_SIZE <=? Z.of_nat 1024))
      with true. cbv iota.
    rewrite drop_ge by lia. rewrite app_nil_r.
    rewrite (color_pattern_same_bytes 512 (highByte color)) by congruence.
    rewrite to_uint8_id by apply highByte_range. reflexivity.
  - change (Z.to_nat (SPI_BUFFER_SIZE / 2)) with 512%nat.
    rewrite (store16_loop _ 512 0 [] (spi_buffer s) s) by (simpl; lia || done).
    destruct (SWAP_BYTES_bytes color Hc) as [-> ->].
    rewrite drop_ge by lia. rewrite app_nil_r. reflexivity.
Qed.

(** ** Chunked transfers *)

Lemma to_int_range z : -2147483648 <= to_int z <= 2147483647.
Proof.
  unfold to_int. pose proof (Z.mod_pos_bound (z + 2147483648) 4294967296). lia.
Qed.

(** Below 2^30 pixels the byte count [2 * len] survives the conversions. *)
Lemma remaining_bytes_small len :
  0 <= len < 1073741824 -> to_int (to_uint32 (2 * len)) = 2 * len.
Proof.
  intros H. rewrite to_uint32_id by (unfold is_uint32; lia).
  apply to_int_id. lia.
Qed.

Lemma chunk_sizes_nonpos total : total <= 0 -> chunk_sizes total = [].
Proof.
  intros H. unfold chunk_sizes. by rewrite (proj2 (Z.leb_le total 0)).
Qed.

Lemma chunk_sizes_last total :
  0 < total <= SPI_BUFFER_SIZE -> chunk_sizes total = [total].
Proof.
  unfold chunk_sizes, SPI_BUFFER_SIZE. intros H.
  rewrite (proj2 (Z.leb_gt total 0)) by lia.
  destruct (Z.eq_dec total 1024) as [-> | Hne]; [reflexivity |].
  rewrite Z.div_small, Z.mod_small by lia.
  rewrite (proj2 (Z.eqb_neq total 0)) by lia. reflexivity.
Qed.

Lemma chunk_sizes_step total :
  SPI_BUFFER_SIZE < total ->
  chunk_sizes total = SPI_BUFFER_SIZE :: chunk_sizes (total - SPI_BUFFER_SIZE).
Proof.
  unfold chunk_sizes, SPI_BUFFER_SIZE. intros H.
  rewrite !(proj2 (Z.leb_gt _ 0)) by lia.
  assert (Hd : total / 1024 = (total - 1024) / 1024 + 1).
  { rewrite <- (Z.div_add (total - 1024) 1 1024) by lia. f_equal. lia. }
  assert (Hm : total mod 1024 = (total - 1024) mod 1024).
  { rewrite <- (Z.mod_add (total - 1024) 1 1024) by lia. f_equal. lia. }
  assert (0 <= (total - 1024) / 1024) by (apply Z.div_pos; lia).
  rewrite Hd, Hm, Z2Nat.inj_add, Nat.add_comm by lia. reflexivity.
Qed.

(** The number of transfers is the ceiling of [total / 1024], their sizes
    add up to [total], and each is between 1 and the buffer capacity. *)
Lemma chunk_sizes_props total :
  0 < total ->
  Z.of_nat (length (chunk_sizes total)) = (total + SPI_BUFFER_SIZE - 1) / SPI_BUFFER_SIZE
  /\ fold_right Z.add 0 (chunk_sizes total) = total
  /\ Forall (fun n => 0 < n <= SPI_BUFFER_SIZE) (chunk_sizes total).
Proof.
  unfold chunk_sizes, SPI_BUFFER_SIZE. intros H.
  rewrite (proj2 (Z.leb_gt total 0)) by lia.
  pose proof (Z.div_mod total 1024 ltac:(lia)) as Hdm.
  pose proof (Z.mod_pos_bound total 1024 ltac:(lia)) as Hr.
  assert (Hq : 0 <= total / 1024) by (apply Z.div_pos; lia).
  set (q := total / 1024) in *. set (r := total mod 1024) in *.
  assert (Hsum : forall n : nat,
             fold_right Z.add 0 (replicate n 1024) = 1024 * Z.of_nat n).
  { induction n as [| n IH]; [reflexivity |].
    simpl replicate. simpl fold_right. rewrite IH. lia. }
  assert (Hsum' : forall (l1 l2 : list Z),
             fold_right Z.add 0 (l1 ++ l2)
             = fold_right Z.add 0 l1 + fold_right Z.add 0 l2).
  { induction l1 as [| a l1 IH]; intros l2; simpl; [lia | rewrite IH; lia]. }
  rewrite length_app, length_replicate, Hsum', Hsum.
  rewrite Forall_app.
  destruct (Z.eqb_spec r 0) as [Hr0 | Hr0]; simpl.
  - repeat split.
    + apply (Z.div_unique _ _ _ 1023); lia.
    + lia.
    + apply Forall_replicate. lia.
    + constructor.
  - repeat split.
    + apply (Z.div_unique _ _ _ (r - 1)); lia.
    + lia.
    + apply Forall_replicate. lia.
    + repeat constructor; lia.
Qed.

Lemma spi_write_buffer_run n s :
  0 <= n <= Z.of_nat (length (spi_buffer s)) ->
  spi_write_buffer n s =
  Some (tt, add_trace s [EvSpiBlock (take (Z.to_nat n) (spi_buffer s))]).
Proof.
  intros H. unfold spi_write_buffer, bind, get_buffer.
  rewrite (proj2 (Z.leb_le 0 n)), (proj2 (Z.leb_le n _)) by lia.
  reflexivity.
Qed.

(** The transfer loop of [writeColor] sends prefixes of the buffer as it
    finds it and never writes to it. *)
Lemma color_chunks_run fuel : forall remaining_bytes s,
  remaining_bytes <= Z.of_nat fuel ->
  remaining_bytes <= 2147483647 ->
  SPI_BUFFER_SIZE <= Z.of_nat (length (spi_buffer s)) ->
  color_chunks fuel remaining_bytes s =
  Some (tt, add_trace s (prefix_blocks (spi_buffer s) remaining_bytes)).
Proof.
  unfold prefix_blocks.
  induction fuel as [| fuel IH]; intros rem s Hfuel Hmax Hbuf.
  - simpl. rewrite Z.gtb_ltb, (proj2 (Z.ltb_ge 0 rem)) by lia.
    rewrite chunk_sizes_nonpos by lia. simpl. by rewrite add_trace_nil.
  - simpl. rewrite Z.gtb_ltb.
    destruct (Z.ltb_spec 0 rem) as [Hpos | Hnp].
    + unfold bind at 1. unfold SPI_BUFFER_SIZE in *.
      rewrite spi_write_buffer_run by lia.
      rewrite to_int_id by lia.
      rewrite IH by (simpl; lia). rewrite add_trace_app. simpl spi_buffer.
      destruct (Z.le_gt_cases rem 1024) as [Hle | Hgt].
      * rewrite (chunk_sizes_last rem) by (unfold SPI_BUFFER_SIZE; lia).
        rewrite chunk_sizes_nonpos by lia.
        rewrite Z.min_l by lia. reflexivity.
      * rewrite (chunk_sizes_step rem) by (unfold SPI_BUFFER_SIZE; lia).
        rewrite Z.min_r by lia. reflexivity.
    + rewrite chunk_sizes_nonpos by lia. simpl. by rewrite add_trace_nil.
Qed.

(** ** writeColor *)

Lemma writeColor_hw_run dev color len s :
  connection dev = TFT_HARD_SPI ->
  is_uint16 color -> buffer_ready s -> len <> 0 ->
  writeColor dev color len s =
  Some (tt, add_trace (with_buffer s (color_pattern 512 color))
                      (prefix_blocks (color_pattern 512 color)
                                     (to_int (to_uint32 (2 * len))))).
Proof.
  intros Hhw Hc Hb Hlen. unfold writeColor.
  rewrite (proj2 (Z.eqb_neq len 0)), Hhw by assumption.
  unfold bind. rewrite stage_color_run by assumption.
  pose proof (to_int_range (to_uint32 (2 * len))) as Hr.
  rewrite color_chunks_run;
    [reflexivity | lia | lia |].
  unfold with_buffer. cbn [spi_buffer].
  rewrite color_pattern_length. unfold SPI_BUFFER_SIZE. lia.
Qed.

Lemma transfer_sizes_prefix_blocks buf total :
  SPI_BUFFER_SIZE <= Z.of_nat (length buf) ->
  transfer_sizes (prefix_blocks buf total) = chunk_sizes total.
Proof.
  intros Hbuf. unfold prefix_blocks.
  destruct (Z.le_gt_cases total 0) as [Hle | Hgt].
  - by rewrite chunk_sizes_nonpos.
  - destruct (chunk_sizes_props total Hgt) as (_ & _ & Hall).
    induction Hall as [| n l Hn _ IH]; [reflexivity |].
    simpl. rewrite IH, length_take. f_equal. lia.
Qed.

(** Below 2^30 pixels [writeColor] on hardware SPI issues
    [ceil(2 * n / 1024)] transfers whose sizes add up to [2 * n], none
    larger than the buffer. *)
Lemma writeColor_chunks_below_2_30 dev color n s :
  connection dev = TFT_HARD_SPI ->
  is_uint16 color -> buffer_ready s ->
  0 < n < 1073741824 ->
  exists s',
    writeColor dev color n s = Some (tt, s')
    /\ exists added,
      trace s' = trace s ++ added
      /\ Z.of_nat (length (transfer_sizes added))
         = (2 * n + SPI_BUFFER_SIZE - 1) / SPI_BUFFER_SIZE
      /\ fold_right Z.add 0 (transfer_sizes added) = 2 * n
      /\ Forall (fun k => 0 < k <= SPI_BUFFER_SIZE) (transfer_sizes added).
Proof.
  intros Hhw Hc Hb Hn.
  rewrite writeColor_hw_run by (assumption || lia).
  rewrite remaining_bytes_small by lia.
  eexists. split; [reflexivity |].
  eexists. split; [reflexivity |].
  rewrite transfer_sizes_prefix_blocks
    by (rewrite color_pattern_length; unfold SPI_BUFFER_SIZE; lia).
  apply chunk_sizes_props. lia.
Qed.

(** C3 (failing input). A run of 2^30 pixels is a valid [uint32_t] count
    and calls for 2097152 transfers, but [2 * len] no longer fits the
    [int] loop counter: [writeColor] on hardware SPI stages the buffer and
    transfers nothing. *)
Theorem writeColor_2_30_pixels_transfers_nothing :
  is_uint32 1073741824
  /\ (2 * 1073741824 + SPI_BUFFER_SIZE - 1) / SPI_BUFFER_SIZE = 2097152
  /\ to_int (to_uint32 (2 * 1073741824)) = -2147483648
  /\ option_map trace (exec (writeColor hw_240x320 4660 1073741824) fresh_state)
     = Some [].
Proof.
  split; [unfold is_uint32; lia |].
  split; [reflexivity |].
  split; [reflexivity |].
  unfold exec.
  rewrite writeColor_hw_run; try reflexivity; try lia.
  unfold is_uint16. lia.
Qed.

(** C5. On hardware SPI, [writeColor] with a zero count returns at once
    and leaves the state as it is. With a positive count it succeeds; the
    buffer it leaves is the one every transferred block is a prefix of;
    if the two bytes of the color are equal every byte of that buffer is
    this byte, otherwise every 16-bit slot holds the high byte followed
    by the low byte. *)
Theorem writeColor_stages_buffer_once
        (dev : Adafruit_SPITFT) (color count : Z) (s : tft_state) :
  connection dev = TFT_HARD_SPI ->
  is_uint16 color -> buffer_ready s -> 0 < count ->
  writeColor dev color 0 s = Some (tt, s)
  /\ exists buf sizes,
      writeColor dev color count s =
        Some (tt, {| spi_buffer := buf; cs_pin := cs_pin s;
                     trace := trace s
                              ++ map (fun n => EvSpiBlock (take n buf)) sizes |})
      /\ length buf = Z.to_nat SPI_BUFFER_SIZE
      /\ (highByte color = lowByte color ->
          forall i : nat, (i < 1024)%nat -> buf !! i = Some (highByte color))
      /\ (highByte color <> lowByte color ->
          forall k : nat, (k < 512)%nat ->
            buf !! (2 * k)%nat = Some (highByte color)
            /\ buf !! (2 * k + 1)%nat = Some (lowByte color)).
Proof.
  intros Hhw Hc Hb Hcount. split; [reflexivity |].
  exists (color_pattern 512 color),
         (map Z.to_nat (chunk_sizes (to_int (to_uint32 (2 * count))))).
  split; [| split; [| split]].
  - rewrite writeColor_hw_run by (assumption || lia).
    unfold add_trace, with_buffer, prefix_blocks. simpl.
    by rewrite map_map.
  - by rewrite color_pattern_length.
  - intros Heq i Hi.
    rewrite (color_pattern_same_bytes 512 (highByte color)) by congruence.
    apply lookup_replicate_2. lia.
  - intros _ k Hk. by apply color_pattern_lookup.
Qed.

Lemma writeColor_stages_buffer_once_witness :
  writeColor hw_240x320 4660 0 fresh_state = Some (tt, fresh_state)
  /\ exists buf sizes,
      writeColor hw_240x320 4660 600 fresh_state =
        Some (tt, {| spi_buffer := buf; cs_pin := cs_pin fresh_state;
                     trace := trace fresh_state
                              ++ map (fun n => EvSpiBlock (take n buf)) sizes |})
      /\ length buf = Z.to_nat SPI_BUFFER_SIZE
      /\ (forall k : nat, (k < 512)%nat ->
            buf !! (2 * k)%nat = Some 18 /\ buf !! (2 * k + 1)%nat = Some 52).
Proof.
  destruct (writeColor_stages_buffer_once hw_240x320 4660 600 fresh_state)
    as (H0 & buf & sizes & Hrun & Hlen & _ & Hne).
  - reflexivity.
  - unfold is_uint16. lia.
  - reflexivity.
  - lia.
  - split; [exact H0 |].
    exists buf, sizes. split; [exact Hrun |]. split; [exact Hlen |].
    apply Hne. vm_compute. discriminate.
Defined.

(** ** writePixels *)

Lemma pack_hi_lo_length px : length (pack_hi_lo px) = (2 * length px)%nat.
Proof. unfold pack_hi_lo. induction px as [| c px IH]; simpl in *; lia. Qed.

Lemma pack_hi_lo_app a b : pack_hi_lo (a ++ b) = pack_hi_lo a ++ pack_hi_lo b.
Proof. unfold pack_hi_lo. apply flat_map_app. Qed.

Lemma pack_hi_lo_take (m : nat) px :
  take (2 * m) (pack_hi_lo px) = pack_hi_lo (take m px).
Proof.
  revert px. induction m as [| m IH]; intros px.
  - reflexivity.
  - destruct px as [| c px]; [reflexivity |].
    replace (2 * S m)%nat with (S (S (2 * m))) by lia.
    simpl. by rewrite <- IH.
Qed.

Lemma ptr_read_run p i v s :
  0 <= idx p + i ->
  arr p !! Z.to_nat (idx p + i) = Some v ->
  ptr_read p i s = Some (v, s).
Proof.
  intros Hi Hv. unfold ptr_read.
  rewrite (proj2 (Z.leb_le 0 (idx p + i))), Hv by lia. reflexivity.
Qed.

(** The inner loop stages the pixels [px] that start at index [i], right
    after the part [done] of the buffer it has already filled. *)
Lemma fill_pixels_run colors len px : forall fuel ptr i done rest s,
  (length px <= fuel)%nat ->
  spi_buffer s = done ++ rest ->
  ptr = Z.of_nat (length done) ->
  0 <= idx colors + i ->
  px = take (length px) (drop (Z.to_nat (idx colors + i)) (arr colors)) ->
  ptr + 2 * Z.of_nat (length px) <= Z.of_nat (length done + length rest) ->
  Z.of_nat (length done + length rest) <= SPI_BUFFER_SIZE ->
  i + Z.of_nat (length px) <= len ->
  (SPI_BUFFER_SIZE <= ptr + 2 * Z.of_nat (length px)
   \/ len <= i + Z.of_nat (length px)) ->
  fill_pixels fuel colors len ptr i s =
  Some (i + Z.of_nat (length px),
        with_buffer s (done ++ pack_hi_lo px ++ drop (2 * length px) rest)).
Proof.
  induction px as [| c px IH];
    intros fuel ptr i done rest s Hfuel Hb Hptr Hidx Hpx Hfit Hcap Hlen Hstop.
  - simpl in *.
    assert (Hg : (ptr <? SPI_BUFFER_SIZE) && (i <? len) = false).
    { destruct Hstop;
        [rewrite (proj2 (Z.ltb_ge ptr _)) by lia; reflexivity
        | rewrite (proj2 (Z.ltb_ge i len)) by lia; apply andb_false_r]. }
    destruct fuel; simpl; rewrite Hg; rewrite drop_0, <- Hb, with_buffer_same;
      unfold ret; do 2 f_equal; lia.
  - destruct fuel as [| fuel]; [simpl in Hfuel; lia |].
    simpl length in *.
    destruct rest as [| a [| b rest]]; simpl length in *; try lia.
    simpl fill_pixels.
    rewrite (proj2 (Z.ltb_lt ptr _)), (proj2 (Z.ltb_lt i len)) by lia.
    cbn [andb].
    assert (Hc : arr colors !! Z.to_nat (idx colors + i) = Some c).
    { pose proof (f_equal (fun l => l !! 0%nat) Hpx) as H0.
      cbn beta in H0. rewrite lookup_take_lt, lookup_drop, Nat.add_0_r in H0 by lia.
      by rewrite <- H0. }
    unfold bind at 1. rewrite (ptr_read_run colors i c s Hidx Hc).
    unfold bind at 1.
    rewrite buf_store8_run by (rewrite Hb, length_app; simpl; lia).
    unfold bind at 1.
    rewrite buf_store8_run
      by (unfold with_buffer; cbn [spi_buffer];
          rewrite length_insert, Hb, length_app; simpl; lia).
    unfold with_buffer at 1 2. cbn [spi_buffer cs_pin trace].
    rewrite (IH fuel (ptr + 2) (i + 1)
                (done ++ [highByte c; lowByte c]) rest).
    + unfold with_buffer. cbn [spi_buffer cs_pin trace].
      f_equal. f_equal; [lia |]. f_equal.
      rewrite <- !app_assoc.
      replace (2 * S (length px))%nat with (S (S (2 * length px))) by lia.
      reflexivity.
    + lia.
    + cbn [spi_buffer]. rewrite Hb.
      rewrite !to_uint8_id by (apply highByte_range || apply lowByte_range).
      replace (Z.to_nat (ptr + 1)) with (length done + 1)%nat by lia.
      replace (Z.to_nat ptr) with (length done + 0)%nat by lia.
      rewrite insert_app_r. simpl.
      rewrite insert_app_r. simpl.
      by rewrite <- app_assoc.
    + rewrite length_app. simpl. lia.
    + lia.
    + replace (Z.to_nat (idx colors + (i + 1)))
        with (S (Z.to_nat (idx colors + i))) by lia.
      rewrite (drop_S _ c _ Hc), firstn_cons in Hpx.
      by injection Hpx.
    + rewrite length_app. simpl. lia.
    + rewrite length_app. simpl. lia.
    + lia.
    + lia.
Qed.

Lemma pixel_chunks_S fuel colors len i remaining_bytes :
  pixel_chunks (S fuel) colors len i remaining_bytes =
  if remaining_bytes >? 0
  then (i' <~ fill_pixels (Z.to_nat SPI_BUFFER_SIZE) colors len 0 i ;;
        spi_write_buffer (Z.min remaining_bytes SPI_BUFFER_SIZE) ;;;
        pixel_chunks fuel colors len i' (to_int (remaining_bytes - SPI_BUFFER_SIZE)))
  else ret tt.
Proof. reflexivity. Qed.

(** The outer loop sends [2 * r] bytes: the high-byte-first packing of the
    [r] pixels that start at index [i], cut into buffer-sized blocks. *)
Lemma pixel_chunks_run colors len : forall fuel i r s,
  2 * r <= Z.of_nat fuel ->
  2 * r <= 2147483647 ->
  buffer_ready s ->
  0 <= i ->
  (0 < r -> r <= len - i) ->
  readable colors len ->
  exists buf blocks,
    pixel_chunks fuel colors len i (2 * r) s =
      Some (tt, add_trace (with_buffer s buf) (map EvSpiBlock blocks))
    /\ length buf = Z.to_nat SPI_BUFFER_SIZE
    /\ concat blocks
       = pack_hi_lo (take (Z.to_nat r)
                          (drop (Z.to_nat (idx colors + i)) (arr colors)))
    /\ map (fun b => Z.of_nat (length b)) blocks = chunk_sizes (2 * r).
Proof.
  unfold readable, buffer_ready.
  change (Z.to_nat SPI_BUFFER_SIZE) with 1024%nat.
  induction fuel as [| fuel IH]; intros i r s Hfuel Hmax Hb Hi Hr [Hidx Hread].
  { exists (spi_buffer s), [].
    simpl. rewrite Z.gtb_ltb, (proj2 (Z.ltb_ge 0 (2 * r))) by lia.
    rewrite with_buffer_same, add_trace_nil, chunk_sizes_nonpos by lia.
    replace (Z.to_nat r) with 0%nat by lia. done. }
  destruct (Z.le_gt_cases r 0) as [Hr0 | Hrpos].
  { exists (spi_buffer s), [].
    rewrite pixel_chunks_S, Z.gtb_ltb, (proj2 (Z.ltb_ge 0 (2 * r))) by lia.
    cbn [map concat]. rewrite with_buffer_same, add_trace_nil, chunk_sizes_nonpos by lia.
    replace (Z.to_nat r) with 0%nat by lia. done. }
  specialize (Hr Hrpos).
  set (d := Z.to_nat (idx colors + i)).
  set (k := Z.to_nat (Z.min 512 (len - i))).
  set (px := take k (drop d (arr colors))).
  assert (Hk : length px = k).
  { unfold px. rewrite length_take, length_drop. lia. }
  assert (Hfill :
            fill_pixels (Z.to_nat SPI_BUFFER_SIZE) colors len 0 i s =
            Some (i + Z.of_nat k,
                  with_buffer s (pack_hi_lo px ++ drop (2 * k) (spi_buffer s)))).
  { rewrite <- Hk at 1 2.
    apply (fill_pixels_run colors len px (Z.to_nat SPI_BUFFER_SIZE) 0 i []
                           (spi_buffer s) s);
      unfold SPI_BUFFER_SIZE; simpl length; rewrite ?Hk; try lia; try done. }
  set (s1 := with_buffer s (pack_hi_lo px ++ drop (2 * k) (spi_buffer s))) in *.
  assert (Hb1 : length (spi_buffer s1) = 1024%nat).
  { unfold s1, with_buffer. cbn [spi_buffer].
    rewrite length_app, pack_hi_lo_length, length_drop. lia. }
  set (m := Z.to_nat (Z.min r 512)).
  set (blk := pack_hi_lo (take m (drop d (arr colors)))).
  assert (Hblk : take (Z.to_nat (Z.min (2 * r) SPI_BUFFER_SIZE)) (spi_buffer s1) = blk).
  { unfold s1, with_buffer, blk, SPI_BUFFER_SIZE. cbn [spi_buffer].
    replace (Z.to_nat (Z.min (2 * r) 1024)) with (2 * m)%nat by lia.
    rewrite take_app_le by (rewrite pack_hi_lo_length; lia).
    rewrite pack_hi_lo_take. unfold px. rewrite take_take.
    f_equal. f_equal. lia. }
  assert (Hblk_len : length blk = (2 * m)%nat).
  { unfold blk. rewrite pack_hi_lo_length, length_take, length_drop. lia. }
  destruct (IH (i + Z.of_nat k) (r - 512)
               (add_trace s1 [EvSpiBlock blk]))
    as (buf & blocks & Hrun & Hlen & Hcat & Hsizes);
    [lia | lia | exact Hb1 | lia | lia | split; lia |].
  exists buf, (blk :: blocks).
  split; [| split; [exact Hlen | split]].
  - rewrite pixel_chunks_S, Z.gtb_ltb, (proj2 (Z.ltb_lt 0 (2 * r))) by lia.
    unfold bind at 1. rewrite Hfill.
    unfold bind at 1.
    rewrite spi_write_buffer_run
      by (fold s1; rewrite Hb1; unfold SPI_BUFFER_SIZE; lia).
    fold s1. rewrite Hblk.
    unfold SPI_BUFFER_SIZE. rewrite to_int_id by lia.
    replace (2 * r - 1024) with (2 * (r - 512)) by lia.
    rewrite Hrun.
    unfold add_trace, with_buffer, s1. cbn [spi_buffer cs_pin trace map].
    by rewrite <- app_assoc.
  - simpl concat. rewrite Hcat. unfold blk.
    rewrite <- pack_hi_lo_app. f_equal.
    destruct (Z.le_gt_cases r 512) as [Hle | Hgt].
    + replace (Z.to_nat (r - 512)) with 0%nat by lia.
      simpl take. rewrite app_nil_r. f_equal. lia.
    + replace (Z.to_nat (idx colors + (i + Z.of_nat k))) with (d + m)%nat by lia.
      rewrite <- drop_drop, take_take_drop. f_equal. lia.
  - simpl map. rewrite Hsizes, Hblk_len.
    destruct (Z.le_gt_cases r 512) as [Hle | Hgt].
    + rewrite (chunk_sizes_last (2 * r)) by (unfold SPI_BUFFER_SIZE; lia).
      rewrite chunk_sizes_nonpos by lia. f_equal. lia.
    + rewrite (chunk_sizes_step (2 * r)) by (unfold SPI_BUFFER_SIZE; lia).
      unfold SPI_BUFFER_SIZE. f_equal; [lia | f_equal; lia].
Qed.

Lemma remaining_bytes_even len :
  0 <= len ->
  exists r, to_int (to_uint32 (2 * len)) = 2 * r /\ r <= len.
Proof.
  intros Hlen. unfold to_int, to_uint32.
  pose proof (Z.div_mod (2 * len) 4294967296 ltac:(lia)) as H1.
  pose proof (Z.mod_pos_bound (2 * len) 4294967296 ltac:(lia)) as B1.
  assert (Q1 : 0 <= 2 * len / 4294967296) by (apply Z.div_pos; lia).
  set (a := (2 * len) mod 4294967296) in *.
  set (q := 2 * len / 4294967296) in *.
  pose proof (Z.div_mod (a + 2147483648) 4294967296 ltac:(lia)) as H2.
  assert (Q2 : 0 <= (a + 2147483648) / 4294967296) by (apply Z.div_pos; lia).
  set (q' := (a + 2147483648) / 4294967296) in *.
  exists (len - 2147483648 * (q + q')). lia.
Qed.

Lemma transferred_bytes_blocks blocks :
  transferred_bytes (map EvSpiBlock blocks) = concat blocks.
Proof.
  unfold transferred_bytes.
  induction blocks as [| b blocks IH]; simpl; [reflexivity | by rewrite IH].
Qed.

Lemma transfer_sizes_blocks blocks :
  transfer_sizes (map EvSpiBlock blocks) = map (fun b => Z.of_nat (length b)) blocks.
Proof.
  unfold transfer_sizes.
  induction blocks as [| b blocks IH]; simpl; [reflexivity | by rewrite IH].
Qed.

(** [writePixels] on hardware SPI: the blocks sent hold, high byte first,
    the pixels that [2 * len] as an [int] accounts for. *)
Lemma writePixels_hw_run dev colors len block bigEndian s :
  connection dev = TFT_HARD_SPI ->
  0 < len -> buffer_ready s -> readable colors len ->
  exists buf blocks r,
    writePixels dev colors len block bigEndian s =
      Some (tt, add_trace (with_buffer s buf) (map EvSpiBlock blocks))
    /\ length buf = Z.to_nat SPI_BUFFER_SIZE
    /\ to_int (to_uint32 (2 * len)) = 2 * r
    /\ concat blocks = pack_hi_lo (pixels_at colors r)
    /\ map (fun b => Z.of_nat (length b)) blocks = chunk_sizes (2 * r).
Proof.
  intros Hhw Hlen Hb Hread.
  destruct (remaining_bytes_even len ltac:(lia)) as [r [Hr Hle]].
  pose proof (to_int_range (to_uint32 (2 * len))) as Hrange.
  destruct (pixel_chunks_run colors len (Z.to_nat (2 * r)) 0 r s)
    as (buf & blocks & Hrun & Hbuf & Hcat & Hsizes);
    try assumption; try lia.
  exists buf, blocks, r.
  unfold writePixels.
  rewrite (proj2 (Z.eqb_neq len 0)), Hhw by lia.
  cbv zeta. rewrite Hr, Hrun.
  repeat split; try assumption.
  rewrite Hcat. unfold pixels_at. by rewrite Z.add_0_r.
Qed.

(** C1 (amended). On hardware SPI [writePixels] sends each pixel high
    byte first whatever [block] and [bigEndian] are: the bytes of its
    block transfers are the high-byte-first packing of the pixels that the
    [int] byte counter covers, which below 2^30 pixels are all [len]
    pixels. *)
Theorem writePixels_high_byte_first_whatever_bigEndian
        (dev : Adafruit_SPITFT) (colors : u16ptr) (len : Z)
        (block bigEndian : bool) (s : tft_state) :
  connection dev = TFT_HARD_SPI ->
  0 < len -> buffer_ready s -> readable colors len ->
  exists s' added,
    writePixels dev colors len block bigEndian s = Some (tt, s')
    /\ trace s' = trace s ++ added
    /\ transferred_bytes added
       = pack_hi_lo (pixels_at colors (to_int (to_uint32 (2 * len)) / 2))
    /\ (len < 1073741824 ->
        transferred_bytes added = pack_hi_lo (pixels_at colors len)).
Proof.
  intros Hhw Hlen Hb Hread.
  destruct (writePixels_hw_run dev colors len block bigEndian s Hhw Hlen Hb Hread)
    as (buf & blocks & r & Hrun & _ & Hr & Hcat & _).
  eexists. exists (map EvSpiBlock blocks).
  split; [exact Hrun |].
  split; [reflexivity |].
  rewrite transferred_bytes_blocks, Hcat.
  split.
  - rewrite Hr. f_equal. f_equal.
    symmetry. rewrite Z.mul_comm. apply Z.div_mul. lia.
  - intros Hsmall. rewrite remaining_bytes_small in Hr by lia.
    f_equal. f_equal. lia.
Qed.

Lemma writePixels_high_byte_first_whatever_bigEndian_witness :
  exists s' added,
    writePixels hw_240x320 {| arr := [4660; 22136]; idx := 0 |} 2 true true fresh_state
    = Some (tt, s')
    /\ trace s' = trace fresh_state ++ added
    /\ transferred_bytes added = [18; 52; 86; 120].
Proof.
  destruct (writePixels_high_byte_first_whatever_bigEndian
              hw_240x320 {| arr := [4660; 22136]; idx := 0 |} 2 true true fresh_state)
    as (s' & added & Hrun & Htrace & _ & Hall).
  - reflexivity.
  - lia.
  - reflexivity.
  - unfold readable. simpl. lia.
  - exists s', added. split; [exact Hrun |]. split; [exact Htrace |].
    apply Hall. lia.
Defined.

(** C1 (as stated) fails: with [bigEndian] set, the one pixel 0x1234,
    which lies in memory as 0x34 0x12, should leave unreordered; the code
    sends 0x12 0x34. *)
Lemma writePixels_bigEndian_is_reordered :
  option_map (fun s => transferred_bytes (trace s))
             (exec (writePixels hw_240x320 {| arr := [4660]; idx := 0 |} 1 true true)
                   fresh_state)
  = Some [18; 52]
  /\ writePixels_claimed_bytes [4660] true = [52; 18]
  /\ option_map (fun s => transferred_bytes (trace s))
                (exec (writePixels hw_240x320 {| arr := [4660]; idx := 0 |} 1 true true)
                      fresh_state)
     <> Some (writePixels_claimed_bytes [4660] true).
Proof.
  assert (H : option_map (fun s => transferred_bytes (trace s))
                (exec (writePixels hw_240x320 {| arr := [4660]; idx := 0 |} 1 true true)
                      fresh_state) = Some [18; 52])
    by (vm_compute; reflexivity).
  split; [exact H |].
  split; [reflexivity |].
  rewrite H. discriminate.
Qed.

(** The soft-SPI loop of [writePixels]: one bit-banged word per pixel. *)
Lemma soft_pixels_loop dev colors (n : nat) : forall k s,
  connection dev = TFT_SOFT_SPI ->
  0 <= idx colors + k ->
  idx colors + k + Z.of_nat n <= Z.of_nat (length (arr colors)) ->
  for_n n k tt (fun k _ => c <~ ptr_read colors k ;; SPI_WRITE16 dev c) s =
  Some (tt, add_trace s
              (flat_map bitbang16_events
                        (take n (drop (Z.to_nat (idx colors + k)) (arr colors))))).
Proof.
  induction n as [| n IH]; intros k s Hsw Hlo Hhi.
  - simpl. by rewrite add_trace_nil.
  - destruct (lookup_lt_is_Some_2 (arr colors) (Z.to_nat (idx colors + k)))
      as [c Hc]; [lia |].
    cbn [for_n]. unfold bind at 1. unfold bind at 1.
    rewrite (ptr_read_run colors k c s Hlo Hc).
    rewrite SPI_WRITE16_run, Hsw. cbn [word16_events].
    rewrite IH by (assumption || lia).
    rewrite add_trace_app. do 3 f_equal.
    rewrite (drop_S _ c _ Hc), firstn_cons.
    replace (Z.to_nat (idx colors + (k + 1)))
      with (S (Z.to_nat (idx colors + k))) by lia.
    reflexivity.
Qed.

(** A run of at most 512 pixels on either connection. *)
Lemma writePixels_small_run dev p n s :
  0 < n <= 512 -> readable p n ->
  (connection dev = TFT_HARD_SPI -> buffer_ready s) ->
  exists s',
    writePixels dev p n true false s = Some (tt, s')
    /\ trace s' = trace s ++ pixel_run_events (connection dev) (pixels_at p n)
    /\ cs_pin s' = cs_pin s
    /\ (buffer_ready s -> buffer_ready s').
Proof.
  intros Hn Hread Hb.
  destruct (connection dev) eqn:Hconn.
  - destruct (writePixels_hw_run dev p n true false s Hconn ltac:(lia) (Hb eq_refl) Hread)
      as (buf & blocks & r & Hrun & Hbuf & Hr & Hcat & Hsizes).
    rewrite remaining_bytes_small in Hr by lia.
    assert (r = n) by lia. subst r.
    rewrite chunk_sizes_last in Hsizes by (unfold SPI_BUFFER_SIZE; lia).
    destruct blocks as [| b [| b' blocks]]; try discriminate.
    simpl in Hcat. rewrite app_nil_r in Hcat. subst b.
    eexists. split; [exact Hrun |].
    repeat split. intros _. exact Hbuf.
  - unfold writePixels. rewrite (proj2 (Z.eqb_neq n 0)), Hconn by lia.
    destruct Hread as [Hlo Hhi].
    rewrite soft_pixels_loop by (assumption || lia).
    eexists. split; [reflexivity |].
    rewrite Z.add_0_r. repeat split. intros H. exact H.
Qed.

(** Below 2^30 pixels [writePixels] on hardware SPI issues
    [ceil(2 * len / 1024)] transfers whose sizes add up to [2 * len],
    none larger than the buffer. *)
Lemma writePixels_chunks_below_2_30 dev colors len block bigEndian s :
  connection dev = TFT_HARD_SPI ->
  buffer_ready s -> readable colors len ->
  0 < len < 1073741824 ->
  exists s' added,
    writePixels dev colors len block bigEndian s = Some (tt, s')
    /\ trace s' = trace s ++ added
    /\ Z.of_nat (length (transfer_sizes added))
       = (2 * len + SPI_BUFFER_SIZE - 1) / SPI_BUFFER_SIZE
    /\ fold_right Z.add 0 (transfer_sizes added) = 2 * len
    /\ Forall (fun k => 0 < k <= SPI_BUFFER_SIZE) (transfer_sizes added).
Proof.
  intros Hhw Hb Hread Hlen.
  destruct (writePixels_hw_run dev colors len block bigEndian s Hhw ltac:(lia) Hb Hread)
    as (buf & blocks & r & Hrun & _ & Hr & _ & Hsizes).
  rewrite remaining_bytes_small in Hr by lia.
  assert (r = len) by lia. subst r.
  eexists. exists (map EvSpiBlock blocks).
  split; [exact Hrun |]. split; [reflexivity |].
  rewrite transfer_sizes_blocks, Hsizes.
  apply chunk_sizes_props. lia.
Qed.

(** ** drawRGBBitmap *)

(** With a non-negative row count the [while (h--)] loop is [h] calls of
    [writePixels]. *)
Lemma bitmap_rows_unroll dev (n : nat) : forall fuel p w saveW,
  (n <= fuel)%nat -> Z.of_nat n <= 32767 ->
  bitmap_rows dev fuel p w saveW (Z.of_nat n)
  = row_transfers dev p (to_uint32 w) saveW n.
Proof.
  induction n as [| n IH]; intros fuel p w saveW Hfuel Hn.
  - destruct fuel; reflexivity.
  - destruct fuel as [| fuel]; [lia |].
    cbn [bitmap_rows row_transfers].
    rewrite (proj2 (Z.eqb_neq (Z.of_nat (S n)) 0)) by lia.
    rewrite to_int16_id by (unfold is_int16; lia).
    replace (Z.of_nat (S n) - 1) with (Z.of_nat n) by lia.
    rewrite IH by lia. reflexivity.
Qed.

Lemma flat_map_seq_shift {A} (f : nat -> list A) (n : nat) : forall a,
  flat_map f (seq (S a) n) = flat_map (fun r => f (S r)) (seq a n).
Proof.
  induction n as [| n IH]; intros a; [reflexivity |].
  cbn [seq flat_map]. by rewrite IH.
Qed.

Lemma row_transfers_run dev w saveW (n : nat) : forall p s,
  0 < w <= 512 ->
  (forall r : nat, (r < n)%nat -> readable (ptr_add p (Z.of_nat r * saveW)) w) ->
  (connection dev = TFT_HARD_SPI -> buffer_ready s) ->
  exists s',
    row_transfers dev p w saveW n s = Some (tt, s')
    /\ trace s' = trace s
                  ++ flat_map (fun r => pixel_run_events
                                          (connection dev)
                                          (pixels_at (ptr_add p (Z.of_nat r * saveW)) w))
                              (seq 0 n)
    /\ cs_pin s' = cs_pin s
    /\ (buffer_ready s -> buffer_ready s').
Proof.
  induction n as [| n IH]; intros p s Hw Hread Hb.
  - exists s. simpl. by rewrite app_nil_r.
  - destruct (writePixels_small_run dev p w s Hw) as (s1 & Hrun1 & Ht1 & Hcs1 & Hb1).
    { specialize (Hread 0%nat ltac:(lia)).
      unfold readable, ptr_add in *. simpl in *. lia. }
    { exact Hb. }
    destruct (IH (ptr_add p saveW) s1 Hw) as (s2 & Hrun2 & Ht2 & Hcs2 & Hb2).
    { intros r Hr. specialize (Hread (S r) ltac:(lia)).
      unfold readable, ptr_add in *. cbn [arr idx] in *.
      rewrite Nat2Z.inj_succ in Hread. lia. }
    { intros Hhw. apply Hb1, Hb, Hhw. }
    exists s2. cbn [row_transfers]. unfold bind. rewrite Hrun1, Hrun2.
    split; [reflexivity |].
    split; [| split; [congruence | tauto]].
    rewrite Ht2, Ht1, <- app_assoc. f_equal.
    cbn [seq flat_map]. f_equal.
    + do 2 f_equal. unfold ptr_add. destruct p. cbn [arr idx]. f_equal. lia.
    + rewrite flat_map_seq_shift.
      apply flat_map_ext. intros r.
      do 2 f_equal. unfold ptr_add. cbn [arr idx]. f_equal.
      rewrite Nat2Z.inj_succ. lia.
Qed.

(** C8. A 10x10 bitmap drawn at x = -3 with all its rows on the canvas:
    the window is the 7x10 span at column 0, and the ten rows are sent by
    ten calls of [writePixels] for 7 pixels each, the first starting at
    element 3 of the source, each next one 10 elements further. Row [r]
    therefore carries source elements [10 r + 3 .. 10 r + 9]. *)
Theorem drawRGBBitmap_left_clip_scenario
        (dev : Adafruit_SPITFT) (y : Z) (pixels : list Z) (s : tft_state) :
  canvas_ok dev -> 7 <= _width dev ->
  0 <= y -> y + 10 <= _height dev ->
  length pixels = 100%nat ->
  (connection dev = TFT_HARD_SPI -> buffer_ready s) ->
  drawRGBBitmap dev (-3) y {| arr := pixels; idx := 0 |} 10 10
  = (startWrite ;;;
     setAddrWindow 0 y 7 10 ;;;
     row_transfers dev {| arr := pixels; idx := 3 |} 7 10 10 ;;;
     endWrite)
  /\ exists s',
      drawRGBBitmap dev (-3) y {| arr := pixels; idx := 0 |} 10 10 s = Some (tt, s')
      /\ trace s' =
         trace s
         ++ [EvStartWrite; EvCS false; EvAddrWindow 0 y 7 10]
         ++ flat_map (fun r => pixel_run_events (connection dev)
                                                (take 7 (drop (10 * r + 3) pixels)))
                     (seq 0 10)
         ++ [EvCS true; EvEndWrite].
Proof.
  intros [HW HH] HW7 Hy Hyh Hlen Hb.
  assert (Heq : drawRGBBitmap dev (-3) y {| arr := pixels; idx := 0 |} 10 10
                = (startWrite ;;;
                   setAddrWindow 0 y 7 10 ;;;
                   row_transfers dev {| arr := pixels; idx := 3 |} 7 10 10 ;;;
                   endWrite)).
  { unfold drawRGBBitmap.
    change (to_int16 (-3 + 10 - 1)) with 6.
    rewrite (to_int16_id (y + 10 - 1)) by (unfold is_int16; lia).
    rewrite !Z.geb_leb.
    rewrite (proj2 (Z.leb_gt (_width dev) (-3))),
      (proj2 (Z.leb_gt (_height dev) y)),
      (proj2 (Z.ltb_ge (y + 10 - 1) 0)), (proj2 (Z.ltb_ge y 0)) by lia.
    cbn [orb Z.ltb Z.compare].
    change (to_int16 (10 + -3)) with 7. change (to_int16 (- -3)) with 3.
    unfold clip_far. rewrite !Z.geb_leb.
    rewrite (proj2 (Z.leb_gt (_width dev) 6)),
      (proj2 (Z.leb_gt (_height dev) (y + 10 - 1))) by lia.
    rewrite (bitmap_rows_unroll dev 10) by lia.
    reflexivity. }
  split; [exact Heq |].
  rewrite Heq. unfold bind.
  rewrite startWrite_run.
  set (s0 := {| spi_buffer := spi_buffer s; cs_pin := false;
                trace := trace s ++ [EvStartWrite; EvCS false] |}).
  unfold setAddrWindow. rewrite emit_run.
  rewrite !to_uint16_id by (unfold is_uint16; lia).
  destruct (row_transfers_run dev 7 10 10 {| arr := pixels; idx := 3 |}
              (add_trace s0 [EvAddrWindow 0 y 7 10]))
    as (s2 & Hrun & Ht & Hcs & _).
  { lia. }
  { intros r Hr. unfold readable, ptr_add. cbn [arr idx]. lia. }
  { exact Hb. }
  rewrite Hrun, endWrite_run.
  eexists. split; [reflexivity |].
  cbn [trace]. rewrite Ht. unfold add_trace, s0. cbn [trace].
  rewrite <- !app_assoc. reflexivity.
Qed.

Lemma drawRGBBitmap_left_clip_scenario_witness :
  drawRGBBitmap hw_240x320 (-3) 2
                {| arr := map Z.of_nat (seq 0 100); idx := 0 |} 10 10
  = (startWrite ;;;
     setAddrWindow 0 2 7 10 ;;;
     row_transfers hw_240x320 {| arr := map Z.of_nat (seq 0 100); idx := 3 |} 7 10 10 ;;;
     endWrite)
  /\ exists s',
      drawRGBBitmap hw_240x320 (-3) 2
                    {| arr := map Z.of_nat (seq 0 100); idx := 0 |} 10 10 fresh_state
      = Some (tt, s')
      /\ trace s' =
         trace fresh_state
         ++ [EvStartWrite; EvCS false; EvAddrWindow 0 2 7 10]
         ++ flat_map (fun r => pixel_run_events
                                 (connection hw_240x320)
                                 (take 7 (drop (10 * r + 3) (map Z.of_nat (seq 0 100)))))
                     (seq 0 10)
         ++ [EvCS true; EvEndWrite].
Proof.
  apply drawRGBBitmap_left_clip_scenario.
  - unfold canvas_ok. simpl. lia.
  - simpl. lia.
  - lia.
  - simpl. lia.
  - reflexivity.
  - intros _. reflexivity.
Defined.

(** ** drawXBitmap *)

Lemma pgm_read_byte_run bitmap k s :
  0 <= k < Z.of_nat (length bitmap) ->
  pgm_read_byte bitmap k s = Some (default 0 (bitmap !! Z.to_nat k), s).
Proof.
  intros Hk. unfold pgm_read_byte.
  rewrite (proj2 (Z.leb_le 0 k)) by lia.
  destruct (lookup_lt_is_Some_2 bitmap (Z.to_nat k)) as [v Hv]; [lia |].
  by rewrite Hv.
Qed.

Lemma bit0_test b : (Z.land b 1 =? 0) = negb (Z.testbit b 0).
Proof.
  change 1 with (Z.ones 1). rewrite Z.land_ones by lia.
  change (2 ^ 1) with 2. rewrite <- Z.bit0_mod.
  by destruct (Z.testbit b 0).
Qed.

Lemma low3_test i : 0 <= i -> (Z.land i 7 =? 0) = (i mod 8 =? 0).
Proof.
  intros _. change 7 with (Z.ones 3). by rewrite Z.land_ones by lia.
Qed.

(** One column: whatever [byte] was on a byte boundary, and the previous
    column's shifted byte otherwise, the stored color is the one bit
    [i mod 8] of the bitmap byte selects. *)
Lemma xbitmap_column_run bitmap byteWidth j fg bg i byte done a b rest s :
  is_uint16 fg -> is_uint16 bg ->
  0 <= i ->
  0 <= j * byteWidth + i / 8 < Z.of_nat (length bitmap) ->
  (i mod 8 <> 0 ->
   Z.shiftr byte 1 = Z.shiftr (xbitmap_byte bitmap byteWidth j i) (i mod 8)) ->
  spi_buffer s = done ++ a :: b :: rest ->
  Z.of_nat (length done) = 2 * i ->
  xbitmap_column bitmap byteWidth j (SWAP_BYTES fg) (SWAP_BYTES bg) i byte s =
  Some (Z.shiftr (xbitmap_byte bitmap byteWidth j i) (i mod 8),
        with_buffer s
          (done ++ pack_hi_lo [xbitmap_pixel lsb_first bitmap byteWidth fg bg j i]
                ++ rest)).
Proof.
  intros Hfg Hbg Hi Hread Hinv Hb Hlen.
  unfold xbitmap_column. rewrite low3_test by lia.
  rewrite Z.quot_div_nonneg by lia.
  set (B := xbitmap_byte bitmap byteWidth j i) in *.
  assert (Hbyte :
            (if i mod 8 =? 0
             then pgm_read_byte bitmap (j * byteWidth + i / 8)
             else ret (Z.shiftr byte 1)) s
            = Some (Z.shiftr B (i mod 8), s)).
  { destruct (Z.eqb_spec (i mod 8) 0) as [H0 | Hn0].
    - rewrite pgm_read_byte_run by lia. rewrite H0, Z.shiftr_0_r. reflexivity.
    - unfold ret. by rewrite Hinv. }
  unfold bind at 1. rewrite Hbyte.
  rewrite bit0_test, Z.shiftr_spec, Z.add_0_l by lia.
  pose proof (Z.mod_pos_bound i 8 ltac:(lia)).
  unfold xbitmap_pixel, lsb_first. fold B.
  destruct (Z.testbit B (i mod 8)); cbn [negb];
    unfold bind; rewrite (buf_store16_run i _ done a b rest s Hb Hlen);
    [destruct (SWAP_BYTES_bytes fg Hfg) as [-> ->]
    | destruct (SWAP_BYTES_bytes bg Hbg) as [-> ->]];
    reflexivity.
Qed.

Lemma xbitmap_columns_run bitmap byteWidth j fg bg (n : nat) :
  forall (first : nat) byte done rest s,
  is_uint16 fg -> is_uint16 bg ->
  (forall i : nat, (first <= i < first + n)%nat ->
     0 <= j * byteWidth + Z.of_nat i / 8 < Z.of_nat (length bitmap)) ->
  (Z.of_nat first mod 8 <> 0 ->
   Z.shiftr byte 1
   = Z.shiftr (xbitmap_byte bitmap byteWidth j (Z.of_nat first)) (Z.of_nat first mod 8)) ->
  spi_buffer s = done ++ rest ->
  length done = (2 * first)%nat ->
  (2 * n <= length rest)%nat ->
  exists byte',
    for_n n (Z.of_nat first) byte
          (xbitmap_column bitmap byteWidth j (SWAP_BYTES fg) (SWAP_BYTES bg)) s
    = Some (byte',
            with_buffer s
              (done
               ++ pack_hi_lo (xbitmap_pixels lsb_first bitmap byteWidth fg bg j first n)
               ++ drop (2 * n) rest)).
Proof.
  induction n as [| n IH];
    intros first byte done rest s Hfg Hbg Hread Hinv Hb Hlen Hfit.
  - exists byte. simpl. rewrite drop_0, <- Hb, with_buffer_same. reflexivity.
  - destruct rest as [| a [| b rest]]; simpl length in Hfit; try lia.
    cbn [for_n]. unfold bind at 1.
    rewrite (xbitmap_column_run bitmap byteWidth j fg bg (Z.of_nat first) byte
                                done a b rest s);
      try assumption; try lia; [| apply Hread; lia].
    set (byte1 := Z.shiftr (xbitmap_byte bitmap byteWidth j (Z.of_nat first))
                           (Z.of_nat first mod 8)).
    set (px := xbitmap_pixel lsb_first bitmap byteWidth fg bg j (Z.of_nat first)).
    destruct (IH (S first) byte1 (done ++ pack_hi_lo [px]) rest
                 (with_buffer s (done ++ pack_hi_lo [px] ++ rest)))
      as [byte' Hrun]; try assumption.
    + intros i Hi. apply Hread. lia.
    + intros Hn0. unfold byte1.
      rewrite Z.shiftr_shiftr by lia.
      rewrite Nat2Z.inj_succ, <- Z.add_1_r in *.
      pose proof (Z.div_mod (Z.of_nat first) 8 ltac:(lia)) as D1.
      pose proof (Z.mod_pos_bound (Z.of_nat first) 8 ltac:(lia)) as B1.
      pose proof (Z.div_mod (Z.of_nat first + 1) 8 ltac:(lia)) as D2.
      pose proof (Z.mod_pos_bound (Z.of_nat first + 1) 8 ltac:(lia)) as B2.
      assert (Hd : (Z.of_nat first + 1) / 8 = Z.of_nat first / 8) by lia.
      assert (Hm : (Z.of_nat first + 1) mod 8 = Z.of_nat first mod 8 + 1) by lia.
      unfold xbitmap_byte. rewrite Hd, Hm. reflexivity.
    + cbn [spi_buffer with_buffer]. by rewrite app_assoc.
    + rewrite length_app. simpl. lia.
    + lia.
    + exists byte'.
      rewrite Nat2Z.inj_succ, <- Z.add_1_r in Hrun. rewrite Hrun.
      unfold with_buffer. cbn [spi_buffer cs_pin trace].
      do 3 f_equal. rewrite <- !app_assoc.
      replace (2 * S n)%nat with (S (S (2 * n))) by lia.
      reflexivity.
Qed.

Lemma xbitmap_pixels_length bit_of bitmap byteWidth fg bg j first n :
  length (xbitmap_pixels bit_of bitmap byteWidth fg bg j first n) = n.
Proof. unfold xbitmap_pixels. by rewrite length_map, length_seq. Qed.

(** One scanline: the row is staged, a one-row window is requested and
    the staged row goes out as one block. *)
Lemma xbitmap_row_run x bitmap w fg bg (j : nat) byte y s :
  is_uint16 fg -> is_uint16 bg ->
  0 < w <= 512 -> 0 <= x <= 32767 ->
  0 <= y -> y + Z.of_nat j < 32767 ->
  buffer_ready s ->
  (Z.of_nat j + 1) * ((w + 7) / 8) <= Z.of_nat (length bitmap) ->
  exists byte' buf,
    xbitmap_row x bitmap w ((w + 7) / 8) (SWAP_BYTES fg) (SWAP_BYTES bg)
                (Z.of_nat j) (byte, y + Z.of_nat j) s
    = Some ((byte', y + Z.of_nat j + 1),
            add_trace (with_buffer s buf)
              (xbitmap_events lsb_first x y bitmap w fg bg j 1))
    /\ length buf = Z.to_nat SPI_BUFFER_SIZE.
Proof.
  intros Hfg Hbg Hw Hx Hy Hyj Hb Hread.
  unfold buffer_ready in Hb.
  change (Z.to_nat SPI_BUFFER_SIZE) with 1024%nat in *.
  set (bw := (w + 7) / 8) in *.
  assert (Hbw : forall i : nat, (i < Z.to_nat w)%nat -> 0 <= Z.of_nat i / 8 < bw).
  { intros i Hi. split; [apply Z.div_pos; lia |].
    unfold bw. apply Z.div_lt_upper_bound; [lia |].
    pose proof (Z.div_mod (w + 7) 8 ltac:(lia)).
    pose proof (Z.mod_pos_bound (w + 7) 8 ltac:(lia)). lia. }
  destruct (xbitmap_columns_run bitmap bw (Z.of_nat j) fg bg (Z.to_nat w)
              0%nat byte [] (spi_buffer s) s)
    as [byte' Hcols]; try assumption; try done; try lia.
  { intros i Hi. specialize (Hbw i ltac:(lia)).
    assert (0 <= bw) by lia. nia. }
  set (row := xbitmap_pixels lsb_first bitmap bw fg bg (Z.of_nat j) 0 (Z.to_nat w)) in *.
  assert (Hrowlen : length (pack_hi_lo row) = (2 * Z.to_nat w)%nat).
  { rewrite pack_hi_lo_length. unfold row. by rewrite xbitmap_pixels_length. }
  exists byte', (pack_hi_lo row ++ drop (2 * Z.to_nat w) (spi_buffer s)).
  split.
  - unfold xbitmap_row. unfold bind at 1.
    change (Z.of_nat 0) with 0 in Hcols. rewrite Hcols. cbn [app].
    unfold bind at 1. unfold setAddrWindow. rewrite emit_run.
    unfold bind.
    rewrite spi_write_buffer_run
      by (unfold add_trace, with_buffer; cbn [spi_buffer];
          rewrite length_app, length_drop, Hrowlen; lia).
    unfold add_trace, with_buffer. cbn [spi_buffer cs_pin trace].
    rewrite !to_uint16_id by (unfold is_uint16; lia).
    rewrite to_int16_id by (unfold is_int16; lia).
    replace (Z.to_nat (2 * w)) with (length (pack_hi_lo row)) by lia.
    rewrite take_app_length.
    unfold ret, xbitmap_events. cbn [seq flat_map].
    rewrite app_nil_r, <- app_assoc. reflexivity.
  - rewrite length_app, length_drop, Hrowlen. lia.
Qed.

Lemma xbitmap_rows_run x y bitmap w fg bg (n : nat) :
  forall (first : nat) byte s,
  is_uint16 fg -> is_uint16 bg ->
  0 < w <= 512 -> 0 <= x <= 32767 ->
  0 <= y -> y + Z.of_nat (first + n) <= 32767 ->
  buffer_ready s ->
  Z.of_nat (first + n) * ((w + 7) / 8) <= Z.of_nat (length bitmap) ->
  exists st' buf,
    for_n n (Z.of_nat first) (byte, y + Z.of_nat first)
          (xbitmap_row x bitmap w ((w + 7) / 8) (SWAP_BYTES fg) (SWAP_BYTES bg)) s
    = Some (st',
            add_trace (with_buffer s buf)
              (xbitmap_events lsb_first x y bitmap w fg bg first n))
    /\ length buf = Z.to_nat SPI_BUFFER_SIZE.
Proof.
  induction n as [| n IH];
    intros first byte s Hfg Hbg Hw Hx Hy Hyh Hb Hread.
  - exists (byte, y + Z.of_nat first), (spi_buffer s).
    split; [| exact Hb].
    unfold xbitmap_events. simpl.
    by rewrite with_buffer_same, add_trace_nil.
  - assert (Hbw : 0 <= (w + 7) / 8) by (apply Z.div_pos; lia).
    assert (Hread1 : (Z.of_nat first + 1) * ((w + 7) / 8)
                     <= Z.of_nat (length bitmap)) by nia.
    destruct (xbitmap_row_run x bitmap w fg bg first byte y s
                Hfg Hbg Hw Hx Hy ltac:(lia) Hb Hread1)
      as (byte1 & buf1 & Hrow & Hlen1).
    assert (Hread2 : Z.of_nat (S first + n) * ((w + 7) / 8)
                     <= Z.of_nat (length bitmap))
      by (replace (S first + n)%nat with (first + S n)%nat by lia; exact Hread).
    destruct (IH (S first) byte1
                 (add_trace (with_buffer s buf1)
                            (xbitmap_events lsb_first x y bitmap w fg bg first 1))
                 Hfg Hbg Hw Hx Hy ltac:(lia) Hlen1 Hread2)
      as (st' & buf & Hrun & Hlen).
    exists st', buf. split; [| exact Hlen].
    cbn [for_n]. unfold bind at 1. rewrite Hrow.
    replace (y + Z.of_nat first + 1) with (y + Z.of_nat (S first)) by lia.
    replace (Z.of_nat first + 1) with (Z.of_nat (S first)) by lia.
    rewrite Hrun.
    unfold add_trace, with_buffer. cbn [spi_buffer cs_pin trace].
    do 3 f_equal. rewrite <- app_assoc. reflexivity.
Qed.

(** C2 (amended). For a bitmap at most 512 columns wide drawn inside the
    16-bit coordinate range, [drawXBitmap] sends, for every row, a one-row
    window and one block in which every column holds the foreground color
    if its bit is set and the background color otherwise, the bits of each
    source byte being taken least significant first, left to right, one
    byte for 8 columns. *)
Theorem drawXBitmap_lsb_first
        (x y : Z) (bitmap : list Z) (w h fg_color bg_color : Z) (s : tft_state) :
  is_uint16 fg_color -> is_uint16 bg_color ->
  0 < w <= 512 -> 0 < h ->
  0 <= x <= 32767 -> 0 <= y -> y + h <= 32767 ->
  buffer_ready s ->
  h * ((w + 7) / 8) <= Z.of_nat (length bitmap) ->
  exists s',
    drawXBitmap x y bitmap w h fg_color bg_color s = Some (tt, s')
    /\ trace s' =
       trace s
       ++ [EvStartWrite; EvCS false]
       ++ xbitmap_events lsb_first x y bitmap w fg_color bg_color 0 (Z.to_nat h)
       ++ [EvCS true; EvEndWrite].
Proof.
  intros Hfg Hbg Hw Hh Hx Hy Hyh Hb Hread.
  unfold drawXBitmap.
  rewrite Z.quot_div_nonneg by lia.
  assert (Hbw : 0 <= (w + 7) / 8 <= 65).
  { split; [apply Z.div_pos; lia |].
    apply Z.div_le_upper_bound; lia. }
  rewrite to_int16_id by (unfold is_int16; lia).
  unfold bind at 1. rewrite startWrite_run.
  set (s0 := {| spi_buffer := spi_buffer s; cs_pin := false;
                trace := trace s ++ [EvStartWrite; EvCS false] |}).
  destruct (xbitmap_rows_run x y bitmap w fg_color bg_color (Z.to_nat h) 0%nat 0 s0)
    as (st' & buf & Hrun & Hlen); try assumption; try lia.
  change (Z.of_nat 0) with 0 in Hrun. rewrite Z.add_0_r in Hrun.
  unfold bind. rewrite Hrun, endWrite_run.
  eexists. split; [reflexivity |].
  unfold add_trace, with_buffer, s0. cbn [spi_buffer cs_pin trace].
  by rewrite <- !app_assoc.
Qed.

Lemma drawXBitmap_lsb_first_witness :
  exists s',
    drawXBitmap 3 4 [1; 128] 8 2 65280 18 fresh_state = Some (tt, s')
    /\ trace s' =
       trace fresh_state
       ++ [EvStartWrite; EvCS false]
       ++ xbitmap_events lsb_first 3 4 [1; 128] 8 65280 18 0 (Z.to_nat 2)
       ++ [EvCS true; EvEndWrite].
Proof.
  apply drawXBitmap_lsb_first.
  - unfold is_uint16. lia.
  - unfold is_uint16. lia.
  - lia.
  - lia.
  - lia.
  - lia.
  - lia.
  - reflexivity.
  - vm_compute. discriminate.
Defined.

(** C2 (as stated) fails: for the one-byte row 0x01 the code colors the
    leftmost column, a most-significant-bit-first reading the rightmost. *)
Lemma drawXBitmap_is_not_msb_first :
  option_map trace (exec (drawXBitmap 0 0 [1] 8 1 65535 0) fresh_state)
  <> Some ([EvStartWrite; EvCS false]
           ++ xbitmap_events msb_first 0 0 [1] 8 65535 0 0 1
           ++ [EvCS true; EvEndWrite]).
Proof.
  intros H. vm_compute in H. discriminate H.
Qed.

(** ** Further properties: colors and byte order *)

(** X1. Swapping the bytes of a 16-bit value twice gives the value back,
    and the result is again a 16-bit value. *)
Theorem SWAP_BYTES_involutive (x : Z) :
  is_uint16 x -> SWAP_BYTES (SWAP_BYTES x) = x /\ is_uint16 (SWAP_BYTES x).
Proof.
  intros Hx.
  pose proof (highByte_range x) as Hh. pose proof (lowByte_range x) as Hl.
  assert (Hs : is_uint16 (SWAP_BYTES x)).
  { rewrite SWAP_BYTES_value by assumption. unfold is_uint16, is_uint8 in *. lia. }
  split; [| exact Hs].
  rewrite (SWAP_BYTES_value (SWAP_BYTES x)) by assumption.
  rewrite (highByte_div (SWAP_BYTES x)) by assumption.
  rewrite lowByte_mod.
  rewrite SWAP_BYTES_value by assumption.
  rewrite (highByte_div x), lowByte_mod in * by assumption.
  unfold is_uint16, is_uint8 in *.
  pose proof (Z.div_mod x 256 ltac:(lia)) as Hdm.
  replace ((x mod 256 * 256 + x / 256) mod 256) with (x / 256)
    by (apply (Z.mod_unique _ _ (x mod 256)); lia).
  replace ((x mod 256 * 256 + x / 256) / 256) with (x mod 256)
    by (apply (Z.div_unique _ _ _ (x / 256)); lia).
  lia.
Qed.

Lemma SWAP_BYTES_involutive_witness :
  SWAP_BYTES (SWAP_BYTES 4660) = 4660 /\ is_uint16 (SWAP_BYTES 4660).
Proof.
  apply SWAP_BYTES_involutive. unfold is_uint16. lia.
Defined.

(** X2. [color565] keeps only the top bits of each channel: shifting the
    three fields of the result back gives each channel with its low 3
    (red, blue) or 2 (green) bits cleared, and channels that agree in
    their top bits give the same color. *)
Theorem color565_channels_recovered (r g b : Z) :
  is_uint8 r -> is_uint8 g -> is_uint8 b ->
  Z.shiftl (Z.shiftr (color565 r g b) 11) 3 = Z.land r 248
  /\ Z.shiftl (Z.land (Z.shiftr (color565 r g b) 5) 63) 2 = Z.land g 252
  /\ Z.shiftl (Z.land (color565 r g b) 31) 3 = Z.land b 248
  /\ color565 r g b = color565 (Z.land r 248) (Z.land g 252) (Z.land b 248).
Proof.
  intros Hr Hg Hb. unfold is_uint8 in *.
  assert (Hmask : forall v n m, 0 <= v < 256 -> 0 <= n -> 0 <= m -> n + m = 8 ->
             Z.land v (Z.shiftl (Z.ones m) n) = v / 2 ^ n * 2 ^ n).
  { intros v n m Hv Hn Hm Hnm. rewrite land_shifted_ones by lia.
    rewrite Z.mod_small; [reflexivity |].
    split; [apply Z.div_pos; lia |].
    apply Z.div_lt_upper_bound; [lia |].
    rewrite <- Z.pow_add_r by lia. rewrite Hnm. change (2 ^ 8) with 256. lia. }
  assert (R : Z.land r 248 = r / 8 * 8) by (apply (Hmask r 3 5); lia).
  assert (G : Z.land g 252 = g / 4 * 4) by (apply (Hmask g 2 6); lia).
  assert (B : Z.land b 248 = b / 8 * 8) by (apply (Hmask b 3 5); lia).
  assert (Ha : 0 <= r / 8 < 32)
    by (split; [apply Z.div_pos | apply Z.div_lt_upper_bound]; lia).
  assert (Hc : 0 <= g / 4 < 64)
    by (split; [apply Z.div_pos | apply Z.div_lt_upper_bound]; lia).
  assert (Hd : 0 <= b / 8 < 32)
    by (split; [apply Z.div_pos | apply Z.div_lt_upper_bound]; lia).
  assert (Hsame : color565 r g b
                  = color565 (Z.land r 248) (Z.land g 252) (Z.land b 248)).
  { rewrite (color565_value r g b), (color565_value (Z.land r 248))
      by (unfold is_uint8; lia).
    rewrite R, G, B, !Z.div_mul by lia. reflexivity. }
  split; [| split; [| split; [| exact Hsame]]];
    rewrite color565_value by (unfold is_uint8; lia);
    change 63 with (Z.ones 6); change 31 with (Z.ones 5);
    rewrite ?Z.land_ones, ?Z.shiftl_mul_pow2, ?Z.shiftr_div_pow2 by lia;
    change (2 ^ 11) with 2048; change (2 ^ 5) with 32; change (2 ^ 6) with 64;
    change (2 ^ 3) with 8; change (2 ^ 2) with 4;
    set (a := r / 8) in *; set (c := g / 4) in *; set (d := b / 8) in *.
  - rewrite R. f_equal. symmetry. apply (Z.div_unique _ _ _ (c * 32 + d)); lia.
  - rewrite G. f_equal.
    replace ((a * 2048 + c * 32 + d) / 32) with (a * 64 + c)
      by (apply (Z.div_unique _ _ _ d); lia).
    symmetry. apply (Z.mod_unique _ _ a); lia.
  - rewrite B. f_equal. symmetry. apply (Z.mod_unique _ _ (a * 64 + c)); lia.
Qed.

Lemma color565_channels_recovered_witness :
  Z.shiftl (Z.shiftr (color565 201 77 30) 11) 3 = Z.land 201 248
  /\ Z.shiftl (Z.land (Z.shiftr (color565 201 77 30) 5) 63) 2 = Z.land 77 252
  /\ Z.shiftl (Z.land (color565 201 77 30) 31) 3 = Z.land 30 248
  /\ color565 201 77 30 = color565 (Z.land 201 248) (Z.land 77 252) (Z.land 30 248).
Proof.
  apply color565_channels_recovered; unfold is_uint8; lia.
Defined.

(** ** Further properties: rectangles and lines *)

(** X3. [fillRect] is [writeFillRect] between the transaction brackets:
    for every request either both do nothing at all, or both hand the
    same clipped rectangle to [writeFillRectPreclipped], [fillRect]
    wrapping that one call in [startWrite] and [endWrite]. *)
Theorem fillRect_brackets_writeFillRect (dev : Adafruit_SPITFT) (x y w h color : Z) :
  (fillRect dev x y w h color = ret tt /\ writeFillRect dev x y w h color = ret tt)
  \/ exists x' y' w' h',
      fillRect dev x y w h color
      = (startWrite ;;; writeFillRectPreclipped dev x' y' w' h' color ;;; endWrite)
      /\ writeFillRect dev x y w h color
         = writeFillRectPreclipped dev x' y' w' h' color.
Proof.
  unfold fillRect, writeFillRect, normalize_extent, clip_near, clip_far.
  repeat (next_guard; try (left; split; reflexivity));
    right; do 4 eexists; split; reflexivity.
Qed.

Lemma bracketed_fill_congr dev a b c d a' b' c' d' color :
  a = a' -> b = b' -> c = c' -> d = d' ->
  (startWrite ;;; writeFillRectPreclipped dev a b c d color ;;; endWrite)
  = (startWrite ;;; writeFillRectPreclipped dev a' b' c' d' color ;;; endWrite).
Proof. by intros -> -> -> ->. Qed.

(** X4. A rectangle request that reaches the canvas, with its far edges
    inside the 16-bit range, is filled over exactly its visible part:
    [fillRect] brackets one [writeFillRectPreclipped] call whose rectangle
    has positive extents and covers the pixels of the signed request that
    lie on the canvas, and no others. Negative extents are included. *)
Theorem fillRect_fills_visible_part (dev : Adafruit_SPITFT) (x y w h color : Z) :
  canvas_ok dev ->
  is_int16 x -> is_int16 y -> is_int16 w -> is_int16 h ->
  w <> 0 -> h <> 0 ->
  (0 < w -> x + w - 1 <= 32767) -> (0 < h -> y + h - 1 <= 32767) ->
  span_low x w < _width dev -> 0 <= span_high x w ->
  span_low y h < _height dev -> 0 <= span_high y h ->
  fillRect dev x y w h color
  = (startWrite ;;;
     writeFillRectPreclipped dev
       (clipped_origin x w) (clipped_origin y h)
       (clipped_extent x w (_width dev)) (clipped_extent y h (_height dev)) color ;;;
     endWrite)
  /\ 0 < clipped_extent x w (_width dev)
  /\ 0 < clipped_extent y h (_height dev)
  /\ forall px py,
      (span (clipped_origin x w) (clipped_extent x w (_width dev)) px
       /\ span (clipped_origin y h) (clipped_extent y h (_height dev)) py)
      <-> (span_signed x w px /\ span_signed y h py /\ on_canvas dev px py).
Proof.
  unfold canvas_ok, is_int16.
  intros [HW HH] Hx Hy Hw Hh Hw0 Hh0 Hxw Hyh Hxl Hxh Hyl Hyh'.
  unfold clipped_extent, clipped_origin, span_low, span_high in *.
  split; [| split; [lia | split; [lia |]]].
  - unfold fillRect, normalize_extent, clip_near, clip_far.
    repeat next_guard;
      first [ apply bracketed_fill_congr; int16_abstract; lia
            | exfalso; int16_abstract; lia ].
  - intros px py. unfold span, span_signed, on_canvas. lia.
Qed.

Lemma fillRect_fills_visible_part_witness :
  fillRect hw_240x320 (-5) 4 10 (-10) 4660
  = (startWrite ;;;
     writeFillRectPreclipped hw_240x320
       (clipped_origin (-5) 10) (clipped_origin 4 (-10))
       (clipped_extent (-5) 10 (_width hw_240x320))
       (clipped_extent 4 (-10) (_height hw_240x320)) 4660 ;;;
     endWrite)
  /\ 0 < clipped_extent (-5) 10 (_width hw_240x320)
  /\ 0 < clipped_extent 4 (-10) (_height hw_240x320)
  /\ forall px py,
      (span (clipped_origin (-5) 10) (clipped_extent (-5) 10 (_width hw_240x320)) px
       /\ span (clipped_origin 4 (-10)) (clipped_extent 4 (-10) (_height hw_240x320)) py)
      <-> (span_signed (-5) 10 px /\ span_signed 4 (-10) py
           /\ on_canvas hw_240x320 px py).
Proof.
  apply fillRect_fills_visible_part;
    unfold canvas_ok, is_int16, span_low, span_high; simpl; lia.
Defined.

(** X5. A request with a positive width whose far edge [x + w - 1] lies
    beyond 32767 is dropped without any bus activity, wherever it starts:
    the far edge wraps to a negative [int16_t] and the request is taken
    to be off the left side, even when its near edge is on the canvas.
    The same holds for the height. *)
Theorem fillRect_far_edge_overflow_dropped
        (dev : Adafruit_SPITFT) (x y w h color : Z) (s : tft_state) :
  canvas_ok dev ->
  is_int16 x -> is_int16 y -> is_int16 w -> is_int16 h ->
  (0 < w /\ 32767 < x + w - 1) \/ (0 < h /\ 32767 < y + h - 1) ->
  fillRect dev x y w h color s = Some (tt, s).
Proof.
  unfold canvas_ok, is_int16.
  intros [HW HH] Hx Hy Hw Hh Hover.
  unfold fillRect, normalize_extent.
  repeat next_guard; exfalso; int16_abstract; lia.
Qed.

Lemma fillRect_far_edge_overflow_dropped_witness :
  fillRect hw_240x320 100 0 32767 1 4660 fresh_state = Some (tt, fresh_state).
Proof.
  apply fillRect_far_edge_overflow_dropped;
    unfold canvas_ok, is_int16; simpl; lia.
Defined.

(** X6. A fast horizontal line is a filled rectangle of height 1: for
    every request [drawFastHLine] and [fillRect] with [h = 1] behave the
    same, and so do the two variants that leave the transaction to the
    caller, [writeFastHLine] and [writeFillRect]. *)
Theorem fast_hline_is_one_row_rect
        (dev : Adafruit_SPITFT) (x y w color : Z) (s : tft_state) :
  is_int16 y ->
  drawFastHLine dev x y w color s = fillRect dev x y w 1 color s
  /\ writeFastHLine dev x y w color s = writeFillRect dev x y w 1 color s.
Proof.
  unfold is_int16. intros Hy.
  unfold drawFastHLine, writeFastHLine, fillRect, writeFillRect.
  change (normalize_extent y 1) with (y, 1).
  cbv beta iota.
  replace (y + 1 - 1) with y by lia.
  rewrite (to_int16_id y) by (unfold is_int16; lia).
  unfold normalize_extent, clip_near, clip_far.
  split; repeat next_guard; try (exfalso; lia).
Qed.

Lemma fast_hline_is_one_row_rect_witness :
  drawFastHLine hw_240x320 200 10 100 4660 fresh_state
  = fillRect hw_240x320 200 10 100 1 4660 fresh_state
  /\ writeFastHLine hw_240x320 200 10 100 4660 fresh_state
     = writeFillRect hw_240x320 200 10 100 1 4660 fresh_state.
Proof.
  apply fast_hline_is_one_row_rect. unfold is_int16. lia.
Defined.

(** X7. A fast vertical line is a filled rectangle of width 1, in both
    the self-contained and the caller-bracketed variant. *)
Theorem fast_vline_is_one_column_rect
        (dev : Adafruit_SPITFT) (x y h color : Z) (s : tft_state) :
  is_int16 x ->
  drawFastVLine dev x y h color s = fillRect dev x y 1 h color s
  /\ writeFastVLine dev x y h color s = writeFillRect dev x y 1 h color s.
Proof.
  unfold is_int16. intros Hx.
  unfold drawFastVLine, writeFastVLine, fillRect, writeFillRect.
  change (normalize_extent x 1) with (x, 1).
  cbv beta iota.
  replace (x + 1 - 1) with x by lia.
  rewrite (to_int16_id x) by (unfold is_int16; lia).
  unfold normalize_extent, clip_near, clip_far.
  split; repeat next_guard; try (exfalso; lia).
Qed.

Lemma fast_vline_is_one_column_rect_witness :
  drawFastVLine hw_240x320 10 300 (-50) 4660 fresh_state
  = fillRect hw_240x320 10 300 1 (-50) 4660 fresh_state
  /\ writeFastVLine hw_240x320 10 300 (-50) 4660 fresh_state
     = writeFillRect hw_240x320 10 300 1 (-50) 4660 fresh_state.
Proof.
  apply fast_vline_is_one_column_rect. unfold is_int16. lia.
Defined.

(** ** Further properties: pixel streams *)

Lemma for_n_S {A} (n : nat) i (acc : A) body :
  for_n (S n) i acc body = (acc' <~ body i acc ;; for_n n (i + 1) acc' body).
Proof. reflexivity. Qed.

Lemma soft_color_loop color (n : nat) : forall i s,
  for_n n i tt (fun _ _ => for_n 16 0 color bitbang16_step ;;; ret tt) s =
  Some (tt, add_trace s (concat (replicate n (bitbang16_events color)))).
Proof.
  induction n as [| n IH]; intros i s.
  - simpl. by rewrite add_trace_nil.
  - rewrite for_n_S. cbn [replicate concat]. unfold bind at 1. unfold bind at 1.
    destruct (bitbang16_word color 0 s) as [w' ->].
    unfold ret at 1. rewrite IH, add_trace_app. reflexivity.
Qed.

(** X8. On software SPI [writeColor] bit-bangs the color once per pixel,
    for every count however large, and leaves the scratch buffer alone. *)
Theorem writeColor_soft_sends_every_pixel
        (dev : Adafruit_SPITFT) (color len : Z) (s : tft_state) :
  connection dev = TFT_SOFT_SPI -> 0 <= len ->
  writeColor dev color len s =
  Some (tt, add_trace s (concat (replicate (Z.to_nat len) (bitbang16_events color)))).
Proof.
  intros Hsw Hlen. unfold writeColor.
  destruct (Z.eqb_spec len 0) as [-> | Hne].
  - simpl. by rewrite add_trace_nil.
  - rewrite Hsw. apply soft_color_loop.
Qed.

Lemma writeColor_soft_sends_every_pixel_witness :
  writeColor sw_240x320 4660 3 fresh_state =
  Some (tt, add_trace fresh_state
              (concat (replicate (Z.to_nat 3) (bitbang16_events 4660)))).
Proof.
  apply writeColor_soft_sends_every_pixel; [reflexivity | lia].
Defined.

(** X9. On software SPI [writePixels] bit-bangs the elements of the
    source in order, one 16-bit word each, most significant bit first,
    whatever [block] and [bigEndian] are. *)
Theorem writePixels_soft_sends_in_order
        (dev : Adafruit_SPITFT) (colors : u16ptr) (len : Z)
        (block bigEndian : bool) (s : tft_state) :
  connection dev = TFT_SOFT_SPI -> 0 <= len -> readable colors len ->
  writePixels dev colors len block bigEndian s =
  Some (tt, add_trace s (flat_map bitbang16_events (pixels_at colors len))).
Proof.
  intros Hsw Hlen [Hlo Hhi]. unfold writePixels, pixels_at.
  destruct (Z.eqb_spec len 0) as [-> | Hne].
  - simpl. by rewrite add_trace_nil.
  - rewrite Hsw, soft_pixels_loop by (assumption || lia).
    by rewrite Z.add_0_r.
Qed.

Lemma writePixels_soft_sends_in_order_witness :
  writePixels sw_240x320 {| arr := [1; 2; 3; 4]; idx := 1 |} 2 true true fresh_state =
  Some (tt, add_trace fresh_state
              (flat_map bitbang16_events
                        (pixels_at {| arr := [1; 2; 3; 4]; idx := 1 |} 2))).
Proof.
  apply writePixels_soft_sends_in_order.
  - reflexivity.
  - lia.
  - unfold readable. simpl. lia.
Defined.

(** X10. Below 2^30 pixels, [writeColor] on hardware SPI moves [2 * n]
    bytes in [ceil(2 * n / 1024)] block transfers, none of them empty or
    larger than the scratch buffer. *)
Theorem writeColor_hw_chunking
        (dev : Adafruit_SPITFT) (color n : Z) (s : tft_state) :
  connection dev = TFT_HARD_SPI ->
  is_uint16 color -> buffer_ready s ->
  0 < n < 1073741824 ->
  exists s' added,
    writeColor dev color n s = Some (tt, s')
    /\ trace s' = trace s ++ added
    /\ Z.of_nat (length (transfer_sizes added))
       = (2 * n + SPI_BUFFER_SIZE - 1) / SPI_BUFFER_SIZE
    /\ fold_right Z.add 0 (transfer_sizes added) = 2 * n
    /\ Forall (fun k => 0 < k <= SPI_BUFFER_SIZE) (transfer_sizes added).
Proof.
  intros Hhw Hc Hb Hn.
  destruct (writeColor_chunks_below_2_30 dev color n s Hhw Hc Hb Hn)
    as (s' & Hrun & added & Ht & Hprops).
  exists s', added. auto.
Qed.

Lemma writeColor_hw_chunking_witness :
  exists s' added,
    writeColor hw_240x320 4660 1000 fresh_state = Some (tt, s')
    /\ trace s' = trace fresh_state ++ added
    /\ Z.of_nat (length (transfer_sizes added))
       = (2 * 1000 + SPI_BUFFER_SIZE - 1) / SPI_BUFFER_SIZE
    /\ fold_right Z.add 0 (transfer_sizes added) = 2 * 1000
    /\ Forall (fun k => 0 < k <= SPI_BUFFER_SIZE) (transfer_sizes added).
Proof.
  apply writeColor_hw_chunking.
  - reflexivity.
  - unfold is_uint16. lia.
  - reflexivity.
  - lia.
Defined.

(** X11. Below 2^30 pixels, [writePixels] on hardware SPI moves
    [2 * len] bytes in [ceil(2 * len / 1024)] block transfers, none of
    them empty or larger than the scratch buffer, and the bytes are the
    pixels in order, high byte first. *)
Theorem writePixels_hw_chunking
        (dev : Adafruit_SPITFT) (colors : u16ptr) (len : Z)
        (block bigEndian : bool) (s : tft_state) :
  connection dev = TFT_HARD_SPI ->
  buffer_ready s -> readable colors len ->
  0 < len < 1073741824 ->
  exists s' added,
    writePixels dev colors len block bigEndian s = Some (tt, s')
    /\ trace s' = trace s ++ added
    /\ Z.of_nat (length (transfer_sizes added))
       = (2 * len + SPI_BUFFER_SIZE - 1) / SPI_BUFFER_SIZE
    /\ fold_right Z.add 0 (transfer_sizes added) = 2 * len
    /\ Forall (fun k => 0 < k <= SPI_BUFFER_SIZE) (transfer_sizes added)
    /\ transferred_bytes added = pack_hi_lo (pixels_at colors len).
Proof.
  intros Hhw Hb Hread Hlen.
  destruct (writePixels_hw_run dev colors len block bigEndian s Hhw ltac:(lia) Hb Hread)
    as (buf & blocks & r & Hrun & _ & Hr & Hcat & Hsizes).
  rewrite remaining_bytes_small in Hr by lia.
  assert (r = len) by lia. subst r.
  eexists. exists (map EvSpiBlock blocks).
  split; [exact Hrun |]. split; [reflexivity |].
  rewrite transfer_sizes_blocks, Hsizes, transferred_bytes_blocks, Hcat.
  destruct (chunk_sizes_props (2 * len) ltac:(lia)) as (H1 & H2 & H3).
  auto.
Qed.

Lemma writePixels_hw_chunking_witness :
  exists s' added,
    writePixels hw_240x320 {| arr := [1; 2; 3; 4]; idx := 1 |} 2 true false fresh_state
    = Some (tt, s')
    /\ trace s' = trace fresh_state ++ added
    /\ Z.of_nat (length (transfer_sizes added))
       = (2 * 2 + SPI_BUFFER_SIZE - 1) / SPI_BUFFER_SIZE
    /\ fold_right Z.add 0 (transfer_sizes added) = 2 * 2
    /\ Forall (fun k => 0 < k <= SPI_BUFFER_SIZE) (transfer_sizes added)
    /\ transferred_bytes added
       = pack_hi_lo (pixels_at {| arr := [1; 2; 3; 4]; idx := 1 |} 2).
Proof.
  apply writePixels_hw_chunking.
  - reflexivity.
  - reflexivity.
  - unfold readable. simpl. lia.
  - lia.
Defined.

(** X12. [drawPixel] is [writePixel] between the transaction brackets:
    a pixel on the canvas costs one 1x1 window request and one data word,
    which [drawPixel] wraps in [startWrite] and [endWrite]. *)
Theorem drawPixel_brackets_writePixel
        (dev : Adafruit_SPITFT) (x y color : Z) (s : tft_state) :
  canvas_ok dev -> on_canvas dev x y ->
  writePixel dev x y color s =
    Some (tt, add_trace s (EvAddrWindow x y 1 1 :: word16_events (connection dev) color))
  /\ drawPixel dev x y color s =
    Some (tt, {| spi_buffer := spi_buffer s; cs_pin := true;
                 trace := trace s
                          ++ [EvStartWrite; EvCS false; EvAddrWindow x y 1 1]
                          ++ word16_events (connection dev) color
                          ++ [EvCS true; EvEndWrite] |}).
Proof.
  unfold canvas_ok, on_canvas. intros [HW HH] [Hx Hy].
  unfold writePixel, drawPixel.
  rewrite !Z.geb_leb.
  rewrite (proj2 (Z.leb_le 0 x)), (proj2 (Z.leb_le 0 y)),
    (proj2 (Z.ltb_lt x _)), (proj2 (Z.ltb_lt y _)) by lia.
  cbn [andb when]. unfold bind, setAddrWindow.
  rewrite startWrite_run, !emit_run, !SPI_WRITE16_run, endWrite_run.
  rewrite !to_uint16_id by (unfold is_uint16; lia).
  change (to_uint16 1) with 1.
  unfold add_trace. cbn [spi_buffer cs_pin trace].
  split; do 3 f_equal; rewrite <- !app_assoc; reflexivity.
Qed.

Lemma drawPixel_brackets_writePixel_witness :
  writePixel hw_240x320 10 20 4660 fresh_state =
    Some (tt, add_trace fresh_state
                (EvAddrWindow 10 20 1 1 :: word16_events (connection hw_240x320) 4660))
  /\ drawPixel hw_240x320 10 20 4660 fresh_state =
    Some (tt, {| spi_buffer := spi_buffer fresh_state; cs_pin := true;
                 trace := trace fresh_state
                          ++ [EvStartWrite; EvCS false; EvAddrWindow 10 20 1 1]
                          ++ word16_events (connection hw_240x320) 4660
                          ++ [EvCS true; EvEndWrite] |}).
Proof.
  apply drawPixel_brackets_writePixel.
  - unfold canvas_ok. simpl. lia.
  - unfold on_canvas. simpl. lia.
Defined.

(** ** Further properties: a fill from end to end *)

Lemma color_pattern_app n m color :
  color_pattern (n + m) color = color_pattern n color ++ color_pattern m color.
Proof.
  unfold color_pattern. induction n as [| n IH]; [reflexivity |].
  cbn [Nat.add replicate concat]. rewrite IH. by rewrite <- app_assoc.
Qed.

Lemma color_pattern_take n m color :
  (n <= m)%nat -> take (2 * n) (color_pattern m color) = color_pattern n color.
Proof.
  intros Hnm. replace m with (n + (m - n))%nat by lia.
  rewrite color_pattern_app.
  rewrite take_app_length'; [reflexivity |].
  by rewrite color_pattern_length.
Qed.

(** The blocks cut from the staged buffer add up to one copy of the two
    color bytes per pixel. *)
Lemma prefix_blocks_bytes color (fuel : nat) : forall n : nat,
  (n <= fuel)%nat ->
  transferred_bytes (prefix_blocks (color_pattern 512 color) (2 * Z.of_nat n))
  = color_pattern n color.
Proof.
  induction fuel as [| fuel IH]; intros n Hn.
  - replace n with 0%nat by lia. reflexivity.
  - destruct (Nat.le_gt_cases n 512) as [Hle | Hgt].
    + destruct (Nat.eq_dec n 0%nat) as [-> | Hn0]; [reflexivity |].
      unfold prefix_blocks.
      rewrite chunk_sizes_last by (unfold SPI_BUFFER_SIZE; lia).
      cbn [map transferred_bytes flat_map]. rewrite app_nil_r.
      replace (Z.to_nat (2 * Z.of_nat n)) with (2 * n)%nat by lia.
      by apply color_pattern_take.
    + unfold prefix_blocks.
      rewrite chunk_sizes_step by (unfold SPI_BUFFER_SIZE; lia).
      cbn [map transferred_bytes flat_map].
      change (Z.to_nat SPI_BUFFER_SIZE) with (2 * 512)%nat.
      rewrite color_pattern_take by lia.
      replace (2 * Z.of_nat n - SPI_BUFFER_SIZE) with (2 * Z.of_nat (n - 512))
        by (unfold SPI_BUFFER_SIZE; lia).
      specialize (IH (n - 512)%nat ltac:(lia)).
      unfold prefix_blocks, transferred_bytes in IH. rewrite IH.
      rewrite <- color_pattern_app. f_equal. lia.
Qed.

(** X13. Filling a rectangle that lies on the canvas, on hardware SPI:
    the bus sees the opening bracket, one window request for the
    rectangle, then block transfers that carry the two bytes of the
    color, high byte first, exactly [w * h] times, then the closing
    bracket. *)
Theorem fillRect_hw_end_to_end
        (dev : Adafruit_SPITFT) (x y w h color : Z) (s : tft_state) :
  connection dev = TFT_HARD_SPI ->
  canvas_ok dev -> is_uint16 color -> buffer_ready s ->
  0 < w -> 0 < h -> 0 <= x -> 0 <= y ->
  x + w <= _width dev -> y + h <= _height dev ->
  exists s' blocks,
    fillRect dev x y w h color s = Some (tt, s')
    /\ trace s' = trace s
                  ++ [EvStartWrite; EvCS false; EvAddrWindow x y w h]
                  ++ map EvSpiBlock blocks
                  ++ [EvCS true; EvEndWrite]
    /\ concat blocks = color_pattern (Z.to_nat (w * h)) color
    /\ cs_pin s' = true.
Proof.
  intros Hhw Hcanvas Hc Hb Hw Hh Hx Hy Hxw Hyh.
  assert (Hfill : fillRect dev x y w h color
                  = (startWrite ;;; writeFillRectPreclipped dev x y w h color ;;;
                     endWrite)).
  { unfold canvas_ok in Hcanvas. destruct Hcanvas as [HW HH].
    unfold fillRect, normalize_extent, clip_near, clip_far.
    repeat next_guard;
      first [ apply bracketed_fill_congr; int16_abstract; lia
            | exfalso; int16_abstract; lia ]. }
  destruct Hcanvas as [HW HH].
  assert (Hwh : 0 < w * h < 1073741824) by nia.
  rewrite Hfill. unfold bind, writeFillRectPreclipped, bind, setAddrWindow.
  rewrite startWrite_run, emit_run.
  rewrite !to_uint16_id by (unfold is_uint16; lia).
  rewrite (to_uint32_id w), (to_uint32_id h) by (unfold is_uint32; lia).
  rewrite (to_uint32_id (w * h)) by (unfold is_uint32; lia).
  rewrite writeColor_hw_run; try assumption; try lia.
  rewrite remaining_bytes_small by lia.
  rewrite endWrite_run.
  set (P := color_pattern 512 color).
  exists {| spi_buffer := P; cs_pin := true;
            trace := trace s
                     ++ [EvStartWrite; EvCS false; EvAddrWindow x y w h]
                     ++ prefix_blocks P (2 * (w * h))
                     ++ [EvCS true; EvEndWrite] |},
         (map (fun n => take (Z.to_nat n) P) (chunk_sizes (2 * (w * h)))).
  split; [| split; [| split]].
  - unfold add_trace, with_buffer. cbn [spi_buffer cs_pin trace].
    do 3 f_equal. rewrite <- !app_assoc. reflexivity.
  - cbn [trace]. unfold prefix_blocks. by rewrite map_map.
  - rewrite <- transferred_bytes_blocks, map_map.
    pose proof (prefix_blocks_bytes color (Z.to_nat (w * h)) (Z.to_nat (w * h))
                                    ltac:(lia)) as Hbytes.
    rewrite Z2Nat.id in Hbytes by lia. exact Hbytes.
  - reflexivity.
Qed.

Lemma fillRect_hw_end_to_end_witness :
  exists s' blocks,
    fillRect hw_240x320 10 20 30 40 4660 fresh_state = Some (tt, s')
    /\ trace s' = trace fresh_state
                  ++ [EvStartWrite; EvCS false; EvAddrWindow 10 20 30 40]
                  ++ map EvSpiBlock blocks
                  ++ [EvCS true; EvEndWrite]
    /\ concat blocks = color_pattern (Z.to_nat (30 * 40)) 4660
    /\ cs_pin s' = true.
Proof.
  apply fillRect_hw_end_to_end.
  - reflexivity.
  - unfold canvas_ok. simpl. lia.
  - unfold is_uint16. lia.
  - reflexivity.
  - lia.
  - lia.
  - lia.
  - lia.
  - simpl. lia.
  - simpl. lia.
Defined.

(** ** Further properties: bytes, words and long words on the wire *)

Lemma pow2_bit_test w k :
  0 <= k -> (Z.land w (2 ^ k) =? 0) = negb (Z.testbit w k).
Proof.
  intros Hk.
  assert (H : Z.land w (2 ^ k) = if Z.testbit w k then 2 ^ k else 0).
  { apply Z.bits_inj'. intros i Hi.
    rewrite Z.land_spec, Z.pow2_bits_eqb by lia.
    destruct (Z.testbit w k) eqn:E.
    - rewrite Z.pow2_bits_eqb by lia.
      destruct (Z.eqb_spec k i) as [<- | Hne];
        [by rewrite E | by rewrite andb_false_r].
    - rewrite Z.bits_0.
      destruct (Z.eqb_spec k i) as [<- | Hne];
        [by rewrite E | by rewrite andb_false_r]. }
  rewrite H. destruct (Z.testbit w k); [| reflexivity].
  apply Z.eqb_neq. pose proof (Z.pow_pos_nonneg 2 k). lia.
Qed.

Section Bitbang.

Variable width : Z.
Variable step : Z -> Z -> M Z.
Hypothesis width_pos : 0 < width.
Hypothesis step_run : forall bit v s,
  step bit v s =
  Some ((Z.shiftl v 1) mod 2 ^ width,
        add_trace s [EvMOSI (Z.testbit v (width - 1)); EvSCK true; EvSCK false]).

Lemma bitbang_loop c (n : nat) : forall i (j : nat) v s,
  Z.of_nat j + Z.of_nat n <= width ->
  v mod 2 ^ width = (Z.shiftl c (Z.of_nat j)) mod 2 ^ width ->
  exists v',
    for_n n i v step s =
    Some (v', add_trace s
                (flat_map (fun k => [EvMOSI (Z.testbit c (width - 1 - Z.of_nat k));
                                     EvSCK true; EvSCK false])
                          (seq j n))).
Proof.
  induction n as [| n IH]; intros i j v s Hj Hv.
  - exists v. simpl. by rewrite add_trace_nil.
  - rewrite for_n_S. unfold bind at 1. rewrite step_run.
    destruct (IH (i + 1) (S j) ((Z.shiftl v 1) mod 2 ^ width)
                 (add_trace s [EvMOSI (Z.testbit v (width - 1)); EvSCK true; EvSCK false]))
      as [v' Hv']; [lia | |].
    + rewrite Z.mod_mod by (apply Z.pow_nonzero; lia).
      rewrite Nat2Z.inj_succ, <- Z.add_1_r.
      rewrite <- Z.shiftl_shiftl by lia.
      rewrite !(Z.shiftl_mul_pow2 _ 1) by lia.
      change (2 ^ 1) with 2.
      rewrite <- (Z.mul_mod_idemp_l v), Hv, Z.mul_mod_idemp_l
        by (apply Z.pow_nonzero; lia).
      reflexivity.
    + exists v'. rewrite Hv', add_trace_app. do 3 f_equal.
      assert (Hb : Z.testbit v (width - 1)
                   = Z.testbit c (width - 1 - Z.of_nat j)).
      { rewrite <- (Z.mod_pow2_bits_low v width (width - 1)) by lia.
        rewrite Hv.
        rewrite Z.mod_pow2_bits_low, Z.shiftl_spec by lia. reflexivity. }
      by rewrite Hb.
Qed.

Lemma bitbang_all c i s :
  exists v',
    for_n (Z.to_nat width) i c step s
    = Some (v', add_trace s (bitbang_events (width - 1) (Z.to_nat width) c)).
Proof.
  destruct (bitbang_loop c (Z.to_nat width) i 0%nat c s) as [v' Hv'];
    [lia | by rewrite Z.shiftl_0_r |].
  exists v'. rewrite Hv'. reflexivity.
Qed.

End Bitbang.

Lemma bitbang8_step_run bit b s :
  bitbang8_step bit b s =
  Some ((Z.shiftl b 1) mod 2 ^ 8,
        add_trace s [EvMOSI (Z.testbit b (8 - 1)); EvSCK true; EvSCK false]).
Proof.
  unfold bitbang8_step. change 128 with (2 ^ 7).
  rewrite pow2_bit_test by lia. change (8 - 1) with 7.
  destruct (Z.testbit b 7); run_prims; by rewrite <- !app_assoc.
Qed.

Lemma bitbang32_step_run bit l s :
  bitbang32_step bit l s =
  Some ((Z.shiftl l 1) mod 2 ^ 32,
        add_trace s [EvMOSI (Z.testbit l (32 - 1)); EvSCK true; EvSCK false]).
Proof.
  unfold bitbang32_step. change 2147483648 with (2 ^ 31).
  rewrite pow2_bit_test by lia. change (32 - 1) with 31.
  destruct (Z.testbit l 31); run_prims; by rewrite <- !app_assoc.
Qed.

Lemma SPI_WRITE8_run dev b s :
  SPI_WRITE8 dev b s = Some (tt, add_trace s (byte_events (connection dev) b)).
Proof.
  unfold SPI_WRITE8, byte_events. destruct (connection dev); [reflexivity |].
  unfold bind.
  destruct (bitbang_all 8 bitbang8_step ltac:(lia) bitbang8_step_run b 0 s)
    as [v' Hv'].
  change (Z.to_nat 8) with 8%nat in Hv'. rewrite Hv'. reflexivity.
Qed.

Lemma bitbang_seq_shift top v (n m : nat) : forall a : nat,
  flat_map (fun k => [EvMOSI (Z.testbit v (top - Z.of_nat k)); EvSCK true; EvSCK false])
           (seq (n + a) m)
  = flat_map (fun k => [EvMOSI (Z.testbit v (top - Z.of_nat n - Z.of_nat k));
                        EvSCK true; EvSCK false])
             (seq a m).
Proof.
  induction m as [| m IH]; intros a; [reflexivity |].
  cbn [seq flat_map].
  replace (S (n + a)) with (n + S a)%nat by lia. rewrite IH.
  do 3 f_equal. f_equal. lia.
Qed.

Lemma bitbang_events_app top (n m : nat) v :
  bitbang_events top (n + m) v
  = bitbang_events top n v ++ bitbang_events (top - Z.of_nat n) m v.
Proof.
  unfold bitbang_events. rewrite seq_app, flat_map_app. f_equal.
  rewrite <- (bitbang_seq_shift top v n m 0). f_equal. f_equal. lia.
Qed.

Lemma bitbang_events_ext top (n : nat) v v' :
  (forall k, top - Z.of_nat n < k <= top -> Z.testbit v k = Z.testbit v' k) ->
  bitbang_events top n v = bitbang_events top n v'.
Proof.
  intros Hbits. unfold bitbang_events.
  rewrite !flat_map_concat_map. f_equal.
  apply List.map_ext_in. intros k Hk. apply List.in_seq in Hk.
  rewrite Hbits by lia. reflexivity.
Qed.

Lemma SPI_WRITE32_run_soft dev l s :
  connection dev = TFT_SOFT_SPI ->
  SPI_WRITE32 dev l s = Some (tt, add_trace s (bitbang_events 31 32 l)).
Proof.
  intros Hsw. unfold SPI_WRITE32. rewrite Hsw. unfold bind.
  destruct (bitbang_all 32 bitbang32_step ltac:(lia) bitbang32_step_run l 0 s)
    as [v' Hv'].
  change (Z.to_nat 32) with 32%nat in Hv'. rewrite Hv'. reflexivity.
Qed.

Lemma low_bits_byte v n :
  0 <= n <= 8 ->
  to_uint8 (Z.shiftr (Z.land v 65535) n) = to_uint8 (Z.shiftr v n).
Proof.
  intros Hn.
  unfold to_uint8. change 256 with (2 ^ 8).
  rewrite <- !Z.land_ones by lia.
  apply Z.bits_inj'. intros i Hi.
  rewrite !Z.land_spec, !Z.shiftr_spec, Z.land_spec by lia.
  destruct (Z.ltb_spec i 8) as [Hlt | Hge].
  - change 65535 with (Z.ones 16).
    rewrite (Z.ones_spec_low 16 (i + n)) by lia.
    by rewrite andb_true_r.
  - rewrite Z.ones_spec_high by lia. by rewrite !andb_false_r.
Qed.

(** X14. [writeCommand] sends its byte with the data/command line low
    and raises the line again afterwards. On software SPI the byte goes
    out most significant bit first, one clock pulse per bit; on hardware
    SPI it is one single-byte transfer. *)
Theorem writeCommand_trace (dev : Adafruit_SPITFT) (cmd : Z) (s : tft_state) :
  writeCommand dev cmd s =
  Some (tt, add_trace s ([EvDC false] ++ byte_events (connection dev) cmd ++ [EvDC true])).
Proof.
  unfold writeCommand, bind, SPI_DC_LOW, SPI_DC_HIGH.
  rewrite emit_run, SPI_WRITE8_run, emit_run, !add_trace_app. reflexivity.
Qed.

(** X15. A 32-bit write is its high 16-bit word followed by its low
    16-bit word: on software SPI [SPI_WRITE32] produces the pin activity
    of the two [SPI_WRITE16] calls, on hardware SPI one block holding the
    bytes of both, most significant byte first. *)
Theorem SPI_WRITE32_is_two_words (dev : Adafruit_SPITFT) (l : Z) (s : tft_state) :
  SPI_WRITE32 dev l s =
  Some (tt, add_trace s
              match connection dev with
              | TFT_HARD_SPI =>
                  [EvSpiBlock (word16_bytes (Z.shiftr l 16)
                               ++ word16_bytes (Z.land l 65535))]
              | TFT_SOFT_SPI =>
                  word16_events TFT_SOFT_SPI (Z.shiftr l 16)
                  ++ word16_events TFT_SOFT_SPI (Z.land l 65535)
              end)
  /\ (SPI_WRITE16 dev (Z.shiftr l 16) ;;; SPI_WRITE16 dev (Z.land l 65535)) s =
     Some (tt, add_trace s (word16_events (connection dev) (Z.shiftr l 16)
                            ++ word16_events (connection dev) (Z.land l 65535))).
Proof.
  split.
  - destruct (connection dev) eqn:Hconn.
    + unfold SPI_WRITE32. rewrite Hconn, emit_run. unfold word16_bytes.
      rewrite Z.shiftr_shiftr by lia. change (16 + 8) with 24.
      rewrite (low_bits_byte l 8) by lia.
      pose proof (low_bits_byte l 0 ltac:(lia)) as H0.
      rewrite !Z.shiftr_0_r in H0. rewrite H0. reflexivity.
    + rewrite SPI_WRITE32_run_soft by assumption.
      cbn [word16_events]. do 3 f_equal.
      change 32%nat with (16 + 16)%nat.
      rewrite bitbang_events_app. change (31 - Z.of_nat 16) with 15.
      f_equal.
      * unfold bitbang16_events, bitbang_events.
        rewrite !flat_map_concat_map. f_equal.
        apply List.map_ext_in. intros k Hk. apply List.in_seq in Hk.
        rewrite Z.shiftr_spec by lia. do 3 f_equal. lia.
      * change (bitbang16_events (Z.land l 65535))
          with (bitbang_events 15 16 (Z.land l 65535)).
        apply bitbang_events_ext. intros k Hk.
        rewrite Z.land_spec. change 65535 with (Z.ones 16).
        rewrite Z.ones_spec_low by lia. by rewrite andb_true_r.
  - unfold bind. rewrite !SPI_WRITE16_run, add_trace_app. reflexivity.
Qed.

(** X16. A 16-bit write is its high byte followed by its low byte: two
    [SPI_WRITE8] calls for them produce, on software SPI, the pin activity
    of one [SPI_WRITE16], and on hardware SPI single-byte transfers of the
    two bytes that [SPI_WRITE16] sends as one block. *)
Theorem SPI_WRITE16_is_two_bytes (dev : Adafruit_SPITFT) (w : Z) (s : tft_state) :
  (SPI_WRITE8 dev (Z.shiftr w 8) ;;; SPI_WRITE8 dev (Z.land w 255)) s =
  Some (tt, add_trace s
              match connection dev with
              | TFT_HARD_SPI => map EvSpiByte (word16_bytes w)
              | TFT_SOFT_SPI => word16_events TFT_SOFT_SPI w
              end)
  /\ SPI_WRITE16 dev w s =
     Some (tt, add_trace s
                 match connection dev with
                 | TFT_HARD_SPI => [EvSpiBlock (word16_bytes w)]
                 | TFT_SOFT_SPI => word16_events TFT_SOFT_SPI w
                 end).
Proof.
  split.
  - unfold bind. rewrite !SPI_WRITE8_run, add_trace_app. do 3 f_equal.
    destruct (connection dev); cbn [byte_events word16_events].
    + unfold word16_bytes. cbn [map app]. do 3 f_equal.
      unfold to_uint8. change 255 with (Z.ones 8).
      rewrite Z.land_ones by lia. change (2 ^ 8) with 256.
      apply Z.mod_mod. lia.
    + change (bitbang16_events w) with (bitbang_events 15 (8 + 8) w).
      rewrite bitbang_events_app. change (15 - Z.of_nat 8) with 7. f_equal.
      * unfold bitbang_events.
        rewrite !flat_map_concat_map. f_equal.
        apply List.map_ext_in. intros k Hk. apply List.in_seq in Hk.
        rewrite Z.shiftr_spec by lia. do 3 f_equal. lia.
      * apply bitbang_events_ext. intros k Hk.
        rewrite Z.land_spec. change 255 with (Z.ones 8).
        rewrite Z.ones_spec_low by lia. by rewrite andb_true_r.
  - rewrite SPI_WRITE16_run. by destruct (connection dev).
Qed.

(** ** Further properties: bitmaps in general *)

Lemma bitmap_draw_congr dev p w A B C D by1 bx1 A' B' C' D' by1' bx1' :
  A = A' -> B = B' -> C = C' -> D = D' -> by1 = by1' -> bx1 = bx1' ->
  0 <= C' < 4294967296 -> 0 <= D' <= 32767 ->
  (startWrite ;;;
   setAddrWindow A B C D ;;;
   bitmap_rows dev (Z.to_nat 65536) (ptr_add p (by1 * w + bx1)) C w D ;;;
   endWrite)
  = (startWrite ;;;
     setAddrWindow A' B' C' D' ;;;
     row_transfers dev (ptr_add p (by1' * w + bx1')) C' w (Z.to_nat D') ;;;
     endWrite).
Proof.
  intros -> -> -> -> -> -> HC HD.
  pose proof (bitmap_rows_unroll dev (Z.to_nat D') (Z.to_nat 65536)
                                 (ptr_add p (by1' * w + bx1')) C' w
                                 ltac:(lia) ltac:(lia)) as E.
  rewrite Z2Nat.id in E by lia. rewrite E.
  rewrite to_uint32_id by (unfold is_uint32; lia). reflexivity.
Qed.

Lemma drawRGBBitmap_clip_eq dev x y pcolors w h :
  canvas_ok dev ->
  is_int16 x -> is_int16 y -> is_int16 w -> is_int16 h ->
  0 < w -> 0 < h -> x + w - 1 <= 32767 -> y + h - 1 <= 32767 ->
  x < _width dev -> y < _height dev -> 0 <= x + w - 1 -> 0 <= y + h - 1 ->
  drawRGBBitmap dev x y pcolors w h
  = (startWrite ;;;
     setAddrWindow (clipped_origin x w) (clipped_origin y h)
                   (clipped_extent x w (_width dev))
                   (clipped_extent y h (_height dev)) ;;;
     row_transfers dev
                   (ptr_add pcolors (clipped_rows y * w + clipped_columns x))
                   (clipped_extent x w (_width dev)) w
                   (Z.to_nat (clipped_extent y h (_height dev))) ;;;
     endWrite).
Proof.
  unfold canvas_ok, is_int16.
  intros [HW HH] Hx Hy Hwi Hhi Hw Hh Hxw Hyh HxW HyH Hx2 Hy2.
  unfold clipped_extent, clipped_origin, clipped_rows, clipped_columns,
    span_low, span_high.
  unfold drawRGBBitmap, clip_far.
  rewrite !(to_int16_id (x + w - 1)), !(to_int16_id (y + h - 1))
    by (unfold is_int16; lia).
  repeat next_guard;
    first [ apply bitmap_draw_congr; int16_abstract; lia
          | exfalso; lia ].
Qed.

(** X17. A bitmap with positive extents that reaches the canvas, with
    its far edges inside the 16-bit range: [drawRGBBitmap] requests one
    window for the visible part, then sends one [writePixels] run per
    visible row, each as wide as the visible part, starting at the first
    visible pixel of the source and moving on by the full source width. *)
Theorem drawRGBBitmap_clips_to_canvas
        (dev : Adafruit_SPITFT) (x y : Z) (pcolors : u16ptr) (w h : Z) :
  canvas_ok dev ->
  is_int16 x -> is_int16 y -> is_int16 w -> is_int16 h ->
  0 < w -> 0 < h -> x + w - 1 <= 32767 -> y + h - 1 <= 32767 ->
  x < _width dev -> y < _height dev -> 0 <= x + w - 1 -> 0 <= y + h - 1 ->
  drawRGBBitmap dev x y pcolors w h
  = (startWrite ;;;
     setAddrWindow (clipped_origin x w) (clipped_origin y h)
                   (clipped_extent x w (_width dev))
                   (clipped_extent y h (_height dev)) ;;;
     row_transfers dev
                   (ptr_add pcolors (clipped_rows y * w + clipped_columns x))
                   (clipped_extent x w (_width dev)) w
                   (Z.to_nat (clipped_extent y h (_height dev))) ;;;
     endWrite).
Proof.
  unfold canvas_ok, is_int16.
  intros [HW HH] Hx Hy Hwi Hhi Hw Hh Hxw Hyh HxW HyH Hx2 Hy2.
  unfold clipped_extent, clipped_origin, clipped_rows, clipped_columns,
    span_low, span_high.
  unfold drawRGBBitmap, clip_far.
  rewrite !(to_int16_id (x + w - 1)), !(to_int16_id (y + h - 1))
    by (unfold is_int16; lia).
  repeat next_guard;
    first [ apply bitmap_draw_congr; int16_abstract; lia
          | exfalso; lia ].
Qed.

Lemma drawRGBBitmap_clips_to_canvas_witness :
  drawRGBBitmap hw_240x320 (-3) 315 {| arr := []; idx := 0 |} 10 10
  = (startWrite ;;;
     setAddrWindow (clipped_origin (-3) 10) (clipped_origin 315 10)
                   (clipped_extent (-3) 10 (_width hw_240x320))
                   (clipped_extent 315 10 (_height hw_240x320)) ;;;
     row_transfers hw_240x320
                   (ptr_add {| arr := []; idx := 0 |}
                            (clipped_rows 315 * 10 + clipped_columns (-3)))
                   (clipped_extent (-3) 10 (_width hw_240x320)) 10
                   (Z.to_nat (clipped_extent 315 10 (_height hw_240x320))) ;;;
     endWrite).
Proof.
  apply drawRGBBitmap_clips_to_canvas;
    unfold canvas_ok, is_int16; simpl; lia.
Defined.

(** X18. What such a bitmap puts on the bus when its visible part is at
    most 512 pixels wide: the brackets, one window for the visible part,
    and for every visible row one run of pixels (a block on hardware SPI,
    bit-banged words on software SPI) holding the source pixels of that
    row from the first visible column on. *)
Theorem drawRGBBitmap_sends_visible_pixels
        (dev : Adafruit_SPITFT) (x y : Z) (pcolors : u16ptr) (w h : Z)
        (s : tft_state) :
  canvas_ok dev ->
  is_int16 x -> is_int16 y -> is_int16 w -> is_int16 h ->
  0 < w -> 0 < h -> x + w - 1 <= 32767 -> y + h - 1 <= 32767 ->
  x < _width dev -> y < _height dev -> 0 <= x + w - 1 -> 0 <= y + h - 1 ->
  clipped_extent x w (_width dev) <= 512 ->
  readable pcolors (w * h) ->
  (connection dev = TFT_HARD_SPI -> buffer_ready s) ->
  exists s',
    drawRGBBitmap dev x y pcolors w h s = Some (tt, s')
    /\ trace s' =
       trace s
       ++ [EvStartWrite; EvCS false;
           EvAddrWindow (clipped_origin x w) (clipped_origin y h)
                        (clipped_extent x w (_width dev))
                        (clipped_extent y h (_height dev))]
       ++ flat_map
            (fun r => pixel_run_events
                        (connection dev)
                        (pixels_at
                           (ptr_add pcolors ((clipped_rows y + Z.of_nat r) * w
                                             + clipped_columns x))
                           (clipped_extent x w (_width dev))))
            (seq 0 (Z.to_nat (clipped_extent y h (_height dev))))
       ++ [EvCS true; EvEndWrite].
Proof.
  intros Hcanvas Hx Hy Hwi Hhi Hw Hh Hxw Hyh HxW HyH Hx2 Hy2 Hw512 Hread Hb.
  rewrite drawRGBBitmap_clip_eq by assumption.
  destruct Hcanvas as [HW HH]. unfold is_int16 in *.
  set (x' := clipped_origin x w). set (y' := clipped_origin y h).
  set (w' := clipped_extent x w (_width dev)) in *.
  set (h' := clipped_extent y h (_height dev)).
  set (cr := clipped_rows y). set (cc := clipped_columns x).
  assert (Hgeo : 0 <= x' <= 32767 /\ 0 <= y' <= 32767
                 /\ 0 < w' <= 32767 /\ 0 < h' <= 32767
                 /\ 0 <= cr /\ 0 <= cc /\ cc + w' <= w /\ cr + h' <= h).
  { unfold x', y', w', h', cr, cc, clipped_extent, clipped_origin,
      clipped_rows, clipped_columns, span_low, span_high. lia. }
  destruct Hgeo as (Hx' & Hy' & Hw' & Hh' & Hcr & Hcc & Hccw & Hcrh).
  unfold bind. rewrite startWrite_run.
  unfold setAddrWindow. rewrite emit_run.
  rewrite !to_uint16_id by (unfold is_uint16; lia).
  set (s0 := add_trace _ _).
  destruct (row_transfers_run dev w' w (Z.to_nat h')
              (ptr_add pcolors (cr * w + cc)) s0)
    as (s2 & Hrun & Ht & Hcs & _).
  { lia. }
  { intros r Hr. destruct Hread as [Hrlo Hrhi].
    unfold readable, ptr_add. cbn [arr idx].
    assert (0 <= (cr + Z.of_nat r) * w) by nia.
    assert ((cr + Z.of_nat r + 1) * w <= h * w)
      by (apply Z.mul_le_mono_nonneg_r; lia).
    lia. }
  { exact Hb. }
  rewrite Hrun, endWrite_run.
  eexists. split; [reflexivity |].
  cbn [trace]. rewrite Ht. unfold s0, add_trace. cbn [trace].
  rewrite <- !app_assoc. cbn [app].
  apply (f_equal2 app); [reflexivity |].
  do 3 (apply (f_equal2 cons); [reflexivity |]).
  apply (f_equal2 app); [| reflexivity].
  rewrite !flat_map_concat_map. f_equal.
  apply List.map_ext. intros r.
  do 2 f_equal. unfold ptr_add. cbn [arr idx]. f_equal. lia.
Qed.

Lemma drawRGBBitmap_sends_visible_pixels_witness :
  exists s',
    drawRGBBitmap hw_240x320 (-1) 319 {| arr := [1; 2; 3; 4]; idx := 0 |} 2 2
                  fresh_state
    = Some (tt, s')
    /\ trace s' =
       trace fresh_state
       ++ [EvStartWrite; EvCS false;
           EvAddrWindow (clipped_origin (-1) 2) (clipped_origin 319 2)
                        (clipped_extent (-1) 2 (_width hw_240x320))
                        (clipped_extent 319 2 (_height hw_240x320))]
       ++ flat_map
            (fun r => pixel_run_events
                        (connection hw_240x320)
                        (pixels_at
                           (ptr_add {| arr := [1; 2; 3; 4]; idx := 0 |}
                                    ((clipped_rows 319 + Z.of_nat r) * 2
                                     + clipped_columns (-1)))
                           (clipped_extent (-1) 2 (_width hw_240x320))))
            (seq 0 (Z.to_nat (clipped_extent 319 2 (_height hw_240x320))))
       ++ [EvCS true; EvEndWrite].
Proof.
  apply drawRGBBitmap_sends_visible_pixels.
  - unfold canvas_ok. simpl. lia.
  - unfold is_int16. lia.
  - unfold is_int16. lia.
  - unfold is_int16. lia.
  - unfold is_int16. lia.
  - lia.
  - lia.
  - lia.
  - lia.
  - simpl. lia.
  - simpl. lia.
  - lia.
  - lia.
  - vm_compute. discriminate.
  - unfold readable. simpl. lia.
  - intros _. reflexivity.
Defined.

(** ** Further properties: what is never asked of the display *)

(** X19. Whatever 16-bit request [fillRect] is given, on a canvas with
    positive bounds it either does nothing or brackets one
    [writeFillRectPreclipped] call whose rectangle has positive extents,
    lies inside the canvas, and covers only pixels of the signed
    request: the precondition of [writeFillRectPreclipped] and of the
    subclass' [setAddrWindow] is always met. *)
Theorem fillRect_window_always_on_canvas
        (dev : Adafruit_SPITFT) (x y w h color : Z) :
  canvas_ok dev ->
  is_int16 x -> is_int16 y -> is_int16 w -> is_int16 h ->
  fillRect dev x y w h color = ret tt
  \/ exists x' y' w' h',
      fillRect dev x y w h color
      = (startWrite ;;; writeFillRectPreclipped dev x' y' w' h' color ;;; endWrite)
      /\ 0 <= x' /\ 0 < w' /\ x' + w' <= _width dev
      /\ 0 <= y' /\ 0 < h' /\ y' + h' <= _height dev
      /\ forall px py, span x' w' px -> span y' h' py ->
                       span_signed x w px /\ span_signed y h py.
Proof.
  unfold canvas_ok, is_int16.
  intros [HW HH] Hx Hy Hw Hh.
  unfold fillRect, normalize_extent, clip_near, clip_far.
  repeat (next_guard; try (left; reflexivity));
    right; do 4 eexists; (split; [reflexivity |]);
    unfold span, span_signed; int16_abstract;
    do 6 (split; [lia |]); intros px py; lia.
Qed.

Lemma fillRect_window_always_on_canvas_witness :
  fillRect hw_240x320 5 0 (-32768) 1 4660 = ret tt
  \/ exists x' y' w' h',
      fillRect hw_240x320 5 0 (-32768) 1 4660
      = (startWrite ;;; writeFillRectPreclipped hw_240x320 x' y' w' h' 4660 ;;; endWrite)
      /\ 0 <= x' /\ 0 < w' /\ x' + w' <= _width hw_240x320
      /\ 0 <= y' /\ 0 < h' /\ y' + h' <= _height hw_240x320
      /\ forall px py, span x' w' px -> span y' h' py ->
                       span_signed 5 (-32768) px /\ span_signed 0 1 py.
Proof.
  apply fillRect_window_always_on_canvas;
    unfold canvas_ok, is_int16; simpl; lia.
Defined.

(** X20. Whatever position a bitmap with positive 16-bit extents is
    drawn at, [drawRGBBitmap] either does nothing or requests a window
    with positive extents that lies inside the canvas, and sends as many
    rows as the window is high, each as wide as the window. *)
Theorem drawRGBBitmap_window_on_canvas
        (dev : Adafruit_SPITFT) (x y : Z) (pcolors : u16ptr) (w h : Z) :
  canvas_ok dev ->
  is_int16 x -> is_int16 y -> is_int16 w -> is_int16 h ->
  0 < w -> 0 < h ->
  drawRGBBitmap dev x y pcolors w h = ret tt
  \/ exists x' y' w' h' first,
      drawRGBBitmap dev x y pcolors w h
      = (startWrite ;;;
         setAddrWindow x' y' w' h' ;;;
         bitmap_rows dev (Z.to_nat 65536) first w' w h' ;;;
         endWrite)
      /\ 0 <= x' /\ 0 < w' /\ x' + w' <= _width dev
      /\ 0 <= y' /\ 0 < h' /\ y' + h' <= _height dev.
Proof.
  unfold canvas_ok, is_int16.
  intros [HW HH] Hx Hy Hw Hh Hwp Hhp.
  unfold drawRGBBitmap, clip_far.
  repeat (next_guard; try (left; reflexivity));
    right; do 5 eexists; (split; [reflexivity |]);
    int16_abstract; lia.
Qed.

Lemma drawRGBBitmap_window_on_canvas_witness :
  drawRGBBitmap hw_240x320 (-3) 315 {| arr := []; idx := 0 |} 10 10 = ret tt
  \/ exists x' y' w' h' first,
      drawRGBBitmap hw_240x320 (-3) 315 {| arr := []; idx := 0 |} 10 10
      = (startWrite ;;;
         setAddrWindow x' y' w' h' ;;;
         bitmap_rows hw_240x320 (Z.to_nat 65536) first w' 10 h' ;;;
         endWrite)
      /\ 0 <= x' /\ 0 < w' /\ x' + w' <= _width hw_240x320
      /\ 0 <= y' /\ 0 < h' /\ y' + h' <= _height hw_240x320.
Proof.
  apply drawRGBBitmap_window_on_canvas;
    unfold canvas_ok, is_int16; simpl; lia.
Defined.

(** X21. Filling a rectangle that lies on the canvas, on software SPI:
    the opening bracket, one window request for the rectangle, the color
    bit-banged [w * h] times, the closing bracket; the scratch buffer is
    not used. *)
Theorem fillRect_sw_end_to_end
        (dev : Adafruit_SPITFT) (x y w h color : Z) (s : tft_state) :
  connection dev = TFT_SOFT_SPI ->
  canvas_ok dev ->
  0 < w -> 0 < h -> 0 <= x -> 0 <= y ->
  x + w <= _width dev -> y + h <= _height dev ->
  fillRect dev x y w h color s =
  Some (tt, {| spi_buffer := spi_buffer s; cs_pin := true;
               trace := trace s
                        ++ [EvStartWrite; EvCS false; EvAddrWindow x y w h]
                        ++ concat (replicate (Z.to_nat (w * h))
                                             (bitbang16_events color))
                        ++ [EvCS true; EvEndWrite] |}).
Proof.
  intros Hsw Hcanvas Hw Hh Hx Hy Hxw Hyh.
  assert (Hfill : fillRect dev x y w h color
                  = (startWrite ;;; writeFillRectPreclipped dev x y w h color ;;;
                     endWrite)).
  { unfold canvas_ok in Hcanvas. destruct Hcanvas as [HW HH].
    unfold fillRect, normalize_extent, clip_near, clip_far.
    repeat next_guard;
      first [ apply bracketed_fill_congr; int16_abstract; lia
            | exfalso; int16_abstract; lia ]. }
  destruct Hcanvas as [HW HH].
  assert (Hwh : 0 < w * h < 1073741824) by nia.
  rewrite Hfill. unfold bind, writeFillRectPreclipped, bind, setAddrWindow.
  rewrite startWrite_run, emit_run.
  rewrite !to_uint16_id by (unfold is_uint16; lia).
  rewrite (to_uint32_id w), (to_uint32_id h) by (unfold is_uint32; lia).
  rewrite (to_uint32_id (w * h)) by (unfold is_uint32; lia).
  unfold writeColor.
  rewrite (proj2 (Z.eqb_neq (w * h) 0)), Hsw by lia.
  rewrite soft_color_loop, endWrite_run.
  unfold add_trace. cbn [spi_buffer cs_pin trace].
  do 3 f_equal. rewrite <- !app_assoc. reflexivity.
Qed.

Lemma fillRect_sw_end_to_end_witness :
  fillRect sw_240x320 10 20 2 3 4660 fresh_state =
  Some (tt, {| spi_buffer := spi_buffer fresh_state; cs_pin := true;
               trace := trace fresh_state
                        ++ [EvStartWrite; EvCS false; EvAddrWindow 10 20 2 3]
                        ++ concat (replicate (Z.to_nat (2 * 3))
                                             (bitbang16_events 4660))
                        ++ [EvCS true; EvEndWrite] |}).
Proof.
  apply fillRect_sw_end_to_end.
  - reflexivity.
  - unfold canvas_ok. simpl. lia.
  - lia.
  - lia.
  - lia.
  - lia.
  - simpl. lia.
  - simpl. lia.
Defined.

(** ** Further properties: the limits of the scratch buffer *)

Lemma for_n_app {A} (n m : nat) (body : Z -> A -> M A) : forall i acc s,
  for_n (n + m) i acc body s =
  match for_n n i acc body s with
  | Some (acc', s') => for_n m (i + Z.of_nat n) acc' body s'
  | None => None
  end.
Proof.
  induction n as [| n IH]; intros i acc s.
  - cbn [Nat.add for_n]. unfold ret. by rewrite Z.add_0_r.
  - cbn [Nat.add]. rewrite !for_n_S. unfold bind.
    destruct (body i acc s) as [[acc1 s1] |]; [| reflexivity].
    rewrite IH. replace (i + 1 + Z.of_nat n) with (i + Z.of_nat (S n)) by lia.
    reflexivity.
Qed.

Lemma buf_store16_past_end v s :
  length (spi_buffer s) = 1024%nat -> buf_store16 512 v s = None.
Proof.
  intros Hlen. unfold buf_store16, bind, buf_store8, get_buffer, bind.
  rewrite Hlen. reflexivity.
Qed.

(** X22. [drawXBitmap] stages a whole row in the scratch buffer without
    looking at its capacity: for a bitmap wider than 512 columns the
    store for column 512 of the first row falls outside the 1024-byte
    buffer, which is undefined behaviour (no result in the model). *)
Theorem drawXBitmap_wider_than_buffer
        (x y : Z) (bitmap : list Z) (w h fg_color bg_color : Z) (s : tft_state) :
  is_uint16 fg_color -> is_uint16 bg_color ->
  512 < w -> 0 < h ->
  buffer_ready s ->
  65 <= Z.of_nat (length bitmap) ->
  drawXBitmap x y bitmap w h fg_color bg_color s = None.
Proof.
  intros Hfg Hbg Hw Hh Hb Hlen.
  unfold buffer_ready in Hb.
  change (Z.to_nat SPI_BUFFER_SIZE) with 1024%nat in Hb.
  unfold drawXBitmap.
  set (bw := to_int16 (Z.quot (w + 7) 8)).
  unfold bind at 1. rewrite startWrite_run.
  set (s0 := {| spi_buffer := spi_buffer s; cs_pin := false;
                trace := trace s ++ [EvStartWrite; EvCS false] |}).
  unfold bind at 1.
  replace (Z.to_nat h) with (S (Z.to_nat h - 1)) by lia.
  rewrite for_n_S. unfold bind at 1.
  unfold xbitmap_row at 1. unfold bind at 1.
  replace (Z.to_nat w) with (512 + S (Z.to_nat w - 513))%nat by lia.
  rewrite for_n_app.
  destruct (xbitmap_columns_run bitmap bw 0 fg_color bg_color 512 0%nat 0 []
                                (spi_buffer s0) s0)
    as [byte' Hcols]; try assumption; try done.
  { intros i Hi.
    assert (0 <= Z.of_nat i / 8 < 64)
      by (split; [apply Z.div_pos | apply Z.div_lt_upper_bound]; lia).
    lia. }
  { cbn [spi_buffer s0]. lia. }
  change (Z.of_nat 0) with 0 in Hcols. rewrite Hcols.
  rewrite for_n_S. unfold bind at 1.
  change (0 + Z.of_nat 512) with 512.
  set (s1 := with_buffer s0 _).
  assert (Hlen1 : length (spi_buffer s1) = 1024%nat).
  { unfold s1, with_buffer. cbn [spi_buffer app].
    rewrite length_app, pack_hi_lo_length, xbitmap_pixels_length, length_drop.
    cbn [spi_buffer s0]. lia. }
  assert (Hcol : xbitmap_column bitmap bw 0 (SWAP_BYTES fg_color)
                                (SWAP_BYTES bg_color) 512 byte' s1 = None).
  { unfold xbitmap_column.
    change (Z.land 512 7 =? 0) with true. cbv iota.
    change (Z.quot 512 8) with 64.
    unfold bind at 1.
    rewrite pgm_read_byte_run by lia.
    destruct (Z.land _ 1 =? 0); unfold bind;
      by rewrite buf_store16_past_end. }
  by rewrite Hcol.
Qed.

Lemma drawXBitmap_wider_than_buffer_witness :
  drawXBitmap 0 0 (replicate 65 255) 513 1 65535 0 fresh_state = None.
Proof.
  apply drawXBitmap_wider_than_buffer.
  - unfold is_uint16. lia.
  - unfold is_uint16. lia.
  - lia.
  - lia.
  - reflexivity.
  - simpl. lia.
Defined.
